(** * The session controller of the terminal chat (terminal-chat.tsx)

    A shallow embedding of the [TerminalChat] component of
    [codex-cli/src/components/chat/terminal-chat.tsx]: its React state, the
    handlers it passes to its children, its three effects (engine creation,
    thinking timer, desktop notification), the explanation service and the
    confirmation bridge it hands to the engine, followed by the properties
    of the controller.

    React is modelled the way the component uses it:
    - a [useState] cell is a field of [State]; a [useRef] cell is a field too;
    - an object compared with [Object.is] in a dependency array (the config,
      the writable roots, the confirmation prompt, the items array) carries a
      reference number, and the dependency check compares that number;
    - an effect whose dependencies changed runs the cleanup returned by its
      previous run (when that run returned one) and then its body; on a
      commit all such cleanups run before all bodies, in declaration order;
    - calls to collaborators that live outside the file (the engine, the
      config and rollout stores, [spawn]) are recorded, in order, in a trace;
    - a string holds the UTF-8 bytes of a JavaScript string, and [length]
      and [slice] count UTF-16 code units as JavaScript does;
    - a thrown value carries what a template literal makes of it, a text or
      a fault of its own.
    A state of the model is a state of the component once the effects of a
    commit have run; [handle a s] is what the render after the handler of
    [a] shows, before the effects of that render run, and [step s a] is the
    state once they have run. *)

From Stdlib Require Import ZArith List Ascii Bool Lia DecimalString.
From Stdlib Require String.
From stdpp Require Import base list strings.
Import ListNotations.

(** ** Data model *)

(** [OverlayModeType], lines 43-50. *)
Inductive OverlayModeType : Type :=
  | none | history | model | approval | help | diff | mcp.

(** The keys of [colorsByPolicy], lines 61-65. *)
Inductive ApprovalPolicy : Type :=
  | suggest | auto_edit | full_auto.

Definition ApprovalPolicy_eqb (a b : ApprovalPolicy) : bool :=
  match a, b with
  | suggest, suggest | auto_edit, auto_edit | full_auto, full_auto => true
  | _, _ => false
  end.

(** The policy as the template literal of line 586 prints it. *)
Definition policyString (p : ApprovalPolicy) : string :=
  match p with
  | suggest => "suggest"
  | auto_edit => "auto-edit"
  | full_auto => "full-auto"
  end.

Definition Model : Type := string.

Inductive Role : Type :=
  | user | assistant | system | tool.

(** A transcript item.  The component only builds items with these four
    fields and only reads [role] and the text content. *)
Record CoreMessage : Type := mkMessage {
  itemId : option string;
  itemType : option string;
  role : Role;
  content : string
}.

(** Modelled from the spec: [getTextContent] of utils/ai.js is not part of
    the sources; the spec says the gate "flattens its text content", and an
    item of the model holds its text in [content]. *)
Definition getTextContent (m : CoreMessage) : string := content m.

(** [AppConfig] (utils/config.js): the fields the component reads, and the
    reference of the object, which is what a dependency array compares. *)
Record AppConfig : Type := mkConfig {
  configRef : nat;
  configModel : Model;
  instructions : option string;
  notifyOpt : bool
}.

(** [additionalWritableRoots]: a read-only array, compared by reference. *)
Record WritableRoots : Type := mkRoots {
  rootsRef : nat;
  rootsPaths : list string
}.

(** The React element handed to [requestConfirmation], lines 275 and
    286-289; a fresh element has a fresh reference. *)
Record Prompt : Type := mkPrompt {
  promptRef : nat;
  commandForDisplay : string;
  promptExplanation : option string
}.

(** The engine object built at lines 251-302.  [engineId] is the identity of
    the object, [sessionId] the value drawn at line 250; [engPolicy] is the
    field that line 579 overwrites. *)
Record AgentLoop : Type := mkAgent {
  engineId : nat;
  sessionId : nat;
  engModel : Model;
  engConfig : AppConfig;
  engInstructions : option string;
  engPolicy : ApprovalPolicy;
  engRoots : WritableRoots
}.

(** Calls that leave the component. *)
Inductive Event : Type :=
  | EvTerminate (engine : nat)
  | EvConstruct (a : AgentLoop)
  | EvCancel (engine : nat)
  | EvRun (engine : nat) (inputs : list CoreMessage)
  | EvSaveConfig (c : AppConfig)
  | EvSaveRollout (session : nat) (snapshot : list CoreMessage)
  | EvSpawn (command : string) (args : list string).

(** What the process sees of its host: [process.platform] and [shortCwd()]. *)
Record Host : Type := mkHost {
  platform : string;
  PWD : string
}.

(** ** Thrown values *)

(** What a caught value offers to the tests of lines 105 and 109: whether it
    has a [status] property and whether that property is a number.  A status
    code is an integer. *)
Inductive StatusField : Type :=
  | NoStatus
  | NumberStatus (n : Z)
  | OtherStatus.

(** A thrown value: an instance of [Error] with its message, or anything
    else; either way with what a template literal makes of it (the
    [${error}] of line 102 and the [${err}] of line 168): a text, or a fault
    of its own, as for a Symbol or an object without [toString]. *)
Inductive Thrown : Type :=
  | ErrorInstance (message : string) (status : StatusField)
      (printed : Printed)
  | NotAnError (status : StatusField) (printed : Printed)
with Printed : Type :=
  | Prints (text : string)
  | PrintThrows (fault : Thrown).

Definition printOf (e : Thrown) : Printed :=
  match e with
  | ErrorInstance _ _ p => p
  | NotAnError _ p => p
  end.

Definition printable (e : Thrown) : bool :=
  match printOf e with Prints _ => true | PrintThrows _ => false end.

(** A settled promise: rejected with a fault or fulfilled with a value. *)
Definition Promise (A : Type) : Type := (Thrown + A)%type.

Definition tryCatch {A : Type} (body : Promise A)
    (handler : Thrown -> Promise A) : Promise A :=
  match body with
  | inr a => inr a
  | inl e => handler e
  end.

(** ** Component state *)

Record State : Type := mkState {
  host : Host;
  (* props *)
  config : AppConfig;
  additionalWritableRoots : WritableRoots;
  (* useState cells, lines 137-146 and 182 *)
  curModel : Model;
  loading : bool;
  approvalPolicy : ApprovalPolicy;
  thinkingSeconds : nat;
  items : list CoreMessage;
  itemsRef : nat;
  mcpServerStatus : list (string * bool);
  overlayMode : OverlayModeType;
  (* useConfirmation *)
  confirmationPrompt : option Prompt;
  (* useRef cells, lines 199 and 346 *)
  agentRef : option AgentLoop;
  prevLoadingRef : bool;
  (* kept by React and the host: whether the last run of the engine effect
     returned its cleanup, whether the interval of line 329 is live, and the
     supply of fresh object identities *)
  agentCleanup : bool;
  timerHandle : bool;
  nextEngine : nat;
  (* calls made so far, oldest first *)
  trace : list Event
}.

Definition set_config (c : AppConfig) (r : WritableRoots) (s : State) : State :=
  mkState (host s) c r (curModel s) (loading s) (approvalPolicy s)
    (thinkingSeconds s) (items s) (itemsRef s) (mcpServerStatus s)
    (overlayMode s) (confirmationPrompt s) (agentRef s) (prevLoadingRef s)
    (agentCleanup s) (timerHandle s) (nextEngine s) (trace s).

Definition setModel (m : Model) (s : State) : State :=
  mkState (host s) (config s) (additionalWritableRoots s) m (loading s)
    (approvalPolicy s) (thinkingSeconds s) (items s) (itemsRef s)
    (mcpServerStatus s) (overlayMode s) (confirmationPrompt s) (agentRef s)
    (prevLoadingRef s) (agentCleanup s) (timerHandle s) (nextEngine s)
    (trace s).

Definition setLoading (b : bool) (s : State) : State :=
  mkState (host s) (config s) (additionalWritableRoots s) (curModel s) b
    (approvalPolicy s) (thinkingSeconds s) (items s) (itemsRef s)
    (mcpServerStatus s) (overlayMode s) (confirmationPrompt s) (agentRef s)
    (prevLoadingRef s) (agentCleanup s) (timerHandle s) (nextEngine s)
    (trace s).

Definition setApprovalPolicy (p : ApprovalPolicy) (s : State) : State :=
  mkState (host s) (config s) (additionalWritableRoots s) (curModel s)
    (loading s) p (thinkingSeconds s) (items s) (itemsRef s)
    (mcpServerStatus s) (overlayMode s) (confirmationPrompt s) (agentRef s)
    (prevLoadingRef s) (agentCleanup s) (timerHandle s) (nextEngine s)
    (trace s).

Definition setThinkingSeconds (f : nat -> nat) (s : State) : State :=
  mkState (host s) (config s) (additionalWritableRoots s) (curModel s)
    (loading s) (approvalPolicy s) (f (thinkingSeconds s)) (items s)
    (itemsRef s) (mcpServerStatus s) (overlayMode s) (confirmationPrompt s)
    (agentRef s) (prevLoadingRef s) (agentCleanup s) (timerHandle s)
    (nextEngine s) (trace s).

(** [setItems] with an updater: the result is always a new array. *)
Definition setItems (f : list CoreMessage -> list CoreMessage) (s : State)
  : State :=
  mkState (host s) (config s) (additionalWritableRoots s) (curModel s)
    (loading s) (approvalPolicy s) (thinkingSeconds s) (f (items s))
    (S (itemsRef s)) (mcpServerStatus s) (overlayMode s)
    (confirmationPrompt s) (agentRef s) (prevLoadingRef s) (agentCleanup s)
    (timerHandle s) (nextEngine s) (trace s).

Definition setMcpServerStatus (l : list (string * bool)) (s : State) : State :=
  mkState (host s) (config s) (additionalWritableRoots s) (curModel s)
    (loading s) (approvalPolicy s) (thinkingSeconds s) (items s) (itemsRef s)
    l (overlayMode s) (confirmationPrompt s) (agentRef s) (prevLoadingRef s)
    (agentCleanup s) (timerHandle s) (nextEngine s) (trace s).

Definition setOverlayMode (m : OverlayModeType) (s : State) : State :=
  mkState (host s) (config s) (additionalWritableRoots s) (curModel s)
    (loading s) (approvalPolicy s) (thinkingSeconds s) (items s) (itemsRef s)
    (mcpServerStatus s) m (confirmationPrompt s) (agentRef s)
    (prevLoadingRef s) (agentCleanup s) (timerHandle s) (nextEngine s)
    (trace s).

Definition set_confirmationPrompt (p : option Prompt) (s : State) : State :=
  mkState (host s) (config s) (additionalWritableRoots s) (curModel s)
    (loading s) (approvalPolicy s) (thinkingSeconds s) (items s) (itemsRef s)
    (mcpServerStatus s) (overlayMode s) p (agentRef s) (prevLoadingRef s)
    (agentCleanup s) (timerHandle s) (nextEngine s) (trace s).

Definition set_agentRef (a : option AgentLoop) (s : State) : State :=
  mkState (host s) (config s) (additionalWritableRoots s) (curModel s)
    (loading s) (approvalPolicy s) (thinkingSeconds s) (items s) (itemsRef s)
    (mcpServerStatus s) (overlayMode s) (confirmationPrompt s) a
    (prevLoadingRef s) (agentCleanup s) (timerHandle s) (nextEngine s)
    (trace s).

Definition set_prevLoadingRef (b : bool) (s : State) : State :=
  mkState (host s) (config s) (additionalWritableRoots s) (curModel s)
    (loading s) (approvalPolicy s) (thinkingSeconds s) (items s) (itemsRef s)
    (mcpServerStatus s) (overlayMode s) (confirmationPrompt s) (agentRef s)
    b (agentCleanup s) (timerHandle s) (nextEngine s) (trace s).

Definition set_agentCleanup (b : bool) (s : State) : State :=
  mkState (host s) (config s) (additionalWritableRoots s) (curModel s)
    (loading s) (approvalPolicy s) (thinkingSeconds s) (items s) (itemsRef s)
    (mcpServerStatus s) (overlayMode s) (confirmationPrompt s) (agentRef s)
    (prevLoadingRef s) b (timerHandle s) (nextEngine s) (trace s).

Definition set_timerHandle (b : bool) (s : State) : State :=
  mkState (host s) (config s) (additionalWritableRoots s) (curModel s)
    (loading s) (approvalPolicy s) (thinkingSeconds s) (items s) (itemsRef s)
    (mcpServerStatus s) (overlayMode s) (confirmationPrompt s) (agentRef s)
    (prevLoadingRef s) (agentCleanup s) b (nextEngine s) (trace s).

Definition set_nextEngine (n : nat) (s : State) : State :=
  mkState (host s) (config s) (additionalWritableRoots s) (curModel s)
    (loading s) (approvalPolicy s) (thinkingSeconds s) (items s) (itemsRef s)
    (mcpServerStatus s) (overlayMode s) (confirmationPrompt s) (agentRef s)
    (prevLoadingRef s) (agentCleanup s) (timerHandle s) n (trace s).

(** Record one outgoing call. *)
Definition emit (e : Event) (s : State) : State :=
  mkState (host s) (config s) (additionalWritableRoots s) (curModel s)
    (loading s) (approvalPolicy s) (thinkingSeconds s) (items s) (itemsRef s)
    (mcpServerStatus s) (overlayMode s) (confirmationPrompt s) (agentRef s)
    (prevLoadingRef s) (agentCleanup s) (timerHandle s) (nextEngine s)
    (trace s ++ [e]).

(** The setters compute on a state given cell by cell. *)
Arguments set_config c r !s /.
Arguments setModel m !s /.
Arguments setLoading b !s /.
Arguments setApprovalPolicy p !s /.
Arguments setThinkingSeconds f !s /.
Arguments setItems f !s /.
Arguments setMcpServerStatus l !s /.
Arguments setOverlayMode m !s /.
Arguments set_confirmationPrompt p !s /.
Arguments set_agentRef a !s /.
Arguments set_prevLoadingRef b !s /.
Arguments set_agentCleanup b !s /.
Arguments set_timerHandle b !s /.
Arguments set_nextEngine n !s /.
Arguments emit e !s /.

(** ** The engine effect, lines 233-318 *)

(** [agentRef.current?.terminate()]: a call only when the cell is filled. *)
Definition terminateCurrent (s : State) : State :=
  match agentRef s with
  | Some a => emit (EvTerminate (engineId a)) s
  | None => s
  end.

(** The cleanup returned at lines 309-314. *)
Definition agentEffectCleanup (s : State) : State :=
  set_agentRef None (terminateCurrent s).

(** [new AgentLoop({...})], lines 250-302, from the values of the render. *)
Definition newAgentLoop (s : State) : AgentLoop :=
  mkAgent (nextEngine s) (nextEngine s) (curModel s) (config s)
    (instructions (config s)) (approvalPolicy s) (additionalWritableRoots s).

(** The body, lines 234-308.  With a prompt pending it returns at line 237,
    before anything else and without a cleanup. *)
Definition agentEffectBody (s : State) : State :=
  match confirmationPrompt s with
  | Some _ => set_agentCleanup false s
  | None =>
      let s1 := terminateCurrent s in
      let a := newAgentLoop s1 in
      set_agentCleanup true
        (set_nextEngine (S (nextEngine s1))
           (emit (EvConstruct a) (set_agentRef (Some a) s1)))
  end.

(** The dependency array of line 318.  [requestConfirmation] is stable for
    the life of the component (the spec: the engine is recreated "only on
    identity change (not on the broker's or overlay's state)"). *)
Definition agentDepsChanged (old new : State) : bool :=
  negb (String.eqb (curModel old) (curModel new)
        && Nat.eqb (configRef (config old)) (configRef (config new))
        && Nat.eqb (rootsRef (additionalWritableRoots old))
                   (rootsRef (additionalWritableRoots new))).

(** ** The thinking timer, lines 323-343 *)

Definition isPending (s : State) : bool :=
  match confirmationPrompt s with Some _ => true | None => false end.

(** The cleanup of lines 338-342: clear the interval if one was set. *)
Definition timerEffectCleanup (s : State) : State :=
  set_timerHandle false s.

(** The body, lines 324-337.  [handle] is [null] when the else branch is
    reached, so that branch only resets the counter. *)
Definition timerEffectBody (s : State) : State :=
  if loading s && negb (isPending s)
  then set_timerHandle true (setThinkingSeconds (fun _ => 0) s)
  else setThinkingSeconds (fun _ => 0) s.

Definition promptRefOf (s : State) : option nat :=
  match confirmationPrompt s with
  | Some p => Some (promptRef p)
  | None => None
  end.

Definition option_nat_eqb (a b : option nat) : bool :=
  match a, b with
  | Some x, Some y => Nat.eqb x y
  | None, None => true
  | _, _ => false
  end.

(** The dependency array of line 343. *)
Definition timerDepsChanged (old new : State) : bool :=
  negb (Bool.eqb (loading old) (loading new)
        && option_nat_eqb (promptRefOf old) (promptRefOf new)).

(** ** The notification gate, lines 346-378 *)

Definition newline : ascii := ascii_of_nat 10.
Definition dquote : ascii := ascii_of_nat 34.
Definition backslash : ascii := ascii_of_nat 92.

(** [s.replace(/c/g, by)] for a one-character pattern. *)
Fixpoint replaceAll (c : ascii) (by_ : string) (s : string) : string :=
  match s with
  | EmptyString => EmptyString
  | String a rest =>
      if Ascii.eqb a c then by_ +:+ replaceAll c by_ rest
      else String a (replaceAll c by_ rest)
  end.

(** A [string] of the model holds the UTF-8 bytes of a JavaScript string.
    JavaScript measures and cuts a string by UTF-16 code unit: a character
    encoded on one to three bytes is one unit, a character encoded on four
    bytes is two units, a surrogate pair.  The bytes 10xxxxxx continue a
    character and start no unit. *)
Definition isContinuation (b : ascii) : bool :=
  ((128 <=? N_of_ascii b) && (N_of_ascii b <? 192))%N.

Definition unitsOfByte (b : ascii) : nat :=
  if isContinuation b then 0
  else if (N_of_ascii b <? 240)%N then 1 else 2.

(** [s.length]. *)
Fixpoint jsLength (s : string) : nat :=
  match s with
  | EmptyString => 0
  | String b rest => unitsOfByte b + jsLength rest
  end.

(** The first unit of the surrogate pair of a character encoded on four
    bytes, of which [b0] is the first and [rest] holds the others: the unit
    is 0xD800 plus the ten high bits of the code point minus 0x10000, here
    as the three bytes that encode it alone. *)
Definition highSurrogate (b0 : ascii) (rest : string) : string :=
  let b1 := match rest with String c _ => N_of_ascii c | _ => 0%N end in
  let b2 :=
    match rest with String _ (String c _) => N_of_ascii c | _ => 0%N end in
  let hi :=
    (55296 + ((N_of_ascii b0 mod 8) * 256 + (b1 mod 64) * 4
              + (b2 mod 64) / 16 - 64))%N in
  String (ascii_of_N 237)
    (String (ascii_of_N (128 + (hi / 64) mod 64))
       (String (ascii_of_N (128 + hi mod 64)) EmptyString)).

(** [s.slice(0, n)]: the first [n] code units.  A cut between the two units
    of a surrogate pair keeps the first unit alone. *)
Fixpoint slice0 (n : nat) (s : string) : string :=
  match s with
  | EmptyString => EmptyString
  | String b rest =>
      if isContinuation b then String b (slice0 n rest)
      else
        match n with
        | 0 => EmptyString
        | S n1 =>
            if (N_of_ascii b <? 240)%N then String b (slice0 n1 rest)
            else
              match n1 with
              | 0 => highSurrogate b rest
              | S n2 => String b (slice0 n2 rest)
              end
        end
  end.

Definition quoted (s : string) : string :=
  String dquote (s +:+ String dquote EmptyString).

(** Lines 366-367. *)
Definition previewOf (text : string) : string :=
  slice0 100 (replaceAll newline " " text).

Definition safePreviewOf (text : string) : string :=
  replaceAll dquote (String backslash (String dquote EmptyString))
    (previewOf text).

(** The script of line 372. *)
Definition notificationScript (safePreview title cwd : string) : string :=
  "display notification " +:+ quoted safePreview +:+ " with title "
    +:+ quoted title +:+ " subtitle " +:+ quoted cwd +:+ " sound name "
    +:+ quoted "Ping".

Definition isAssistant (m : CoreMessage) : bool :=
  match role m with assistant => true | _ => false end.

(** Lines 362-363: the last element of the filtered array, if any. *)
Definition lastAssistant (l : list CoreMessage) : option CoreMessage :=
  last (List.filter isAssistant l).

Definition spawnNotification (s : State) (m : CoreMessage) : Event :=
  EvSpawn "osascript"
    ["-e"; notificationScript (safePreviewOf (getTextContent m)) "Codex CLI"
             (PWD (host s))].

(** The condition of lines 354-359. *)
Definition gateOpen (s : State) : bool :=
  prevLoadingRef s && negb (loading s) && negb (isPending s)
    && (0 <? length (items s))%nat.

Definition notifyEffectBody (s : State) : State :=
  if negb (notifyOpt (config s)) then set_prevLoadingRef (loading s) s
  else
    let s1 :=
      if gateOpen s then
        if String.eqb (platform (host s)) "darwin" then
          match lastAssistant (items s) with
          | Some m => emit (spawnNotification s m) s
          | None => s
          end
        else s
      else s in
    set_prevLoadingRef (loading s) s1.

(** The dependency array of line 378; [PWD] is computed once. *)
Definition notifyDepsChanged (old new : State) : bool :=
  negb (Bool.eqb (notifyOpt (config old)) (notifyOpt (config new))
        && Bool.eqb (loading old) (loading new)
        && option_nat_eqb (promptRefOf old) (promptRefOf new)
        && Nat.eqb (itemsRef old) (itemsRef new)).

(** ** Commit: the effects whose dependencies changed *)

Definition commit (old new : State) : State :=
  let a := agentDepsChanged old new in
  let t := timerDepsChanged old new in
  let n := notifyDepsChanged old new in
  let s1 := if a && agentCleanup new then agentEffectCleanup new else new in
  let s2 := if t then timerEffectCleanup s1 else s1 in
  let s3 := if a then agentEffectBody s2 else s2 in
  let s4 := if t then timerEffectBody s3 else s3 in
  if n then notifyEffectBody s4 else s4.

(** The state of lines 136-200 before the first commit. *)
Definition initialState (h : Host) (c : AppConfig) (p : ApprovalPolicy)
    (r : WritableRoots) : State :=
  mkState h c r (configModel c) false p 0 [] 0 [] none None None false
    false false 0 [].

(** Mounting runs every effect once. *)
Definition mount (h : Host) (c : AppConfig) (p : ApprovalPolicy)
    (r : WritableRoots) : State :=
  notifyEffectBody (timerEffectBody (agentEffectBody (initialState h c p r))).

(** Unmounting runs the cleanups that are registered. *)
Definition unmount (s : State) : State :=
  timerEffectCleanup (if agentCleanup s then agentEffectCleanup s else s).

(** ** Handlers *)

Definition decimal (n : Z) : string := NilZero.string_of_int (Z.to_int n).

Definition systemNotice (idPrefix : string) (now : Z) (text : string)
  : CoreMessage :=
  mkMessage (Some (idPrefix +:+ decimal now)) None system text.

(** The items the handlers build. *)
Definition summaryItem (summary : string) : CoreMessage :=
  mkMessage None None assistant summary.

Definition compactErrorNotice (now : Z) (err : string) : CoreMessage :=
  systemNotice "compact-error-" now ("Failed to compact context: " +:+ err).

Definition diffItem (now : Z) (isGitRepo : bool) (diffOut : string)
  : CoreMessage :=
  let text :=
    if isGitRepo then diffOut
    else "`/diff` — _not inside a git repository_" in
  mkMessage (Some ("diff-" +:+ decimal now)) (Some "message") system text.

Definition interruptNotice (now : Z) : CoreMessage :=
  systemNotice "interrupt-" now
    "⏹️  Execution interrupted by user. You can continue typing.".

Definition modelSwitchNotice (now : Z) (newModel : Model) : CoreMessage :=
  systemNotice "switch-model-" now ("Switched model to " +:+ newModel).

Definition approvalSwitchNotice (now : Z) (newMode : ApprovalPolicy)
  : CoreMessage :=
  systemNotice "switch-approval-" now
    ("Switched approval mode to " +:+ policyString newMode).

(** [onItem], lines 257-264, of the engine whose session is [sid]. *)
Definition onItem (sid : nat) (item : CoreMessage) (s : State) : State :=
  let updated := items s ++ [item] in
  emit (EvSaveRollout sid updated) (setItems (fun _ => updated) s).

(** [handleCompact], lines 152-174, up to its [await]. *)
Definition handleCompactStart (s : State) : State := setLoading true s.

(** [handleCompact] once [generateCompactSummary] has settled: [inl summary]
    when it resolved, [inr err] when it rejected with the fault [err].  The
    updater of lines 163-170 prints the fault when React applies it; for a
    fault that cannot be printed the updater throws there, the render is
    abandoned and no cell is committed. *)
Definition handleCompactSettled (now : Z) (r : string + Thrown) (s : State)
  : State :=
  match r with
  | inl summary =>
      setLoading false (setItems (fun _ => [summaryItem summary]) s)
  | inr err =>
      match printOf err with
      | Prints text =>
          setLoading false
            (setItems (fun prev => prev ++ [compactErrorNotice now text]) s)
      | PrintThrows _ => s
      end
  end.

(** [handleMCPCommand], lines 225-231. *)
Definition handleMCPCommand (status : list (string * bool)) (s : State)
  : State :=
  setOverlayMode mcp (setMcpServerStatus status s).

(** [openDiffOverlay], lines 472-491. *)
Definition openDiffOverlay (now : Z) (isGitRepo : bool) (diffOut : string)
    (s : State) : State :=
  setOverlayMode none
    (setItems (fun prev => prev ++ [diffItem now isGitRepo diffOut]) s).

(** [interruptAgent], lines 495-515. *)
Definition interruptAgent (now : Z) (s : State) : State :=
  match agentRef s with
  | None => s
  | Some a =>
      setItems (fun prev => prev ++ [interruptNotice now])
        (setLoading false (emit (EvCancel (engineId a)) s))
  end.

(** [submitInput], lines 516-520. *)
Definition submitInput (inputs : list CoreMessage) (s : State) : State :=
  let s1 := setItems (fun prev => prev ++ inputs) s in
  match agentRef s1 with
  | Some a => emit (EvRun (engineId a) inputs) s1
  | None => s1
  end.

(** [agent?.cancel()]. *)
Definition cancelCurrent (s : State) : State :=
  match agentRef s with
  | Some a => emit (EvCancel (engineId a)) s
  | None => s
  end.

(** Modelled from the spec: [saveConfig] of utils/config.js is not part of
    the sources ("Config persistence collaborator: save(config);
    fire-and-forget"); the call of lines 544-547 is recorded with the object
    it spreads and the model it overrides. *)
Definition saveConfigCall (base : AppConfig) (m : Model) : Event :=
  EvSaveConfig (mkConfig (configRef base) m (instructions base)
                  (notifyOpt base)).

(** [onSelect] of the model overlay, lines 531-559. *)
Definition modelOnSelect (now : Z) (newModel : Model) (s : State) : State :=
  let s1 := cancelCurrent s in
  let s2 := setLoading false s1 in
  let s3 := setModel newModel s2 in
  let s4 := emit (saveConfigCall (config s3) newModel) s3 in
  let s5 := setItems (fun prev => prev ++ [modelSwitchNotice now newModel])
              s4 in
  setOverlayMode none s5.

Definition withPolicy (p : ApprovalPolicy) (a : AgentLoop) : AgentLoop :=
  mkAgent (engineId a) (sessionId a) (engModel a) (engConfig a)
    (engInstructions a) p (engRoots a).

(** [onSelect] of the approval overlay, lines 567-591. *)
Definition approvalOnSelect (now : Z) (newMode : ApprovalPolicy) (s : State)
  : State :=
  if ApprovalPolicy_eqb newMode (approvalPolicy s) then s
  else
    let s1 := setApprovalPolicy newMode s in
    let s2 :=
      match agentRef s1 with
      | Some a => set_agentRef (Some (withPolicy newMode a)) s1
      | None => s1
      end in
    let s3 := setItems (fun prev => prev ++
                [approvalSwitchNotice now newMode]) s2 in
    setOverlayMode none s3.

(** The callback of the interval of lines 329-331; a cleared interval does
    not call back. *)
Definition tick (s : State) : State :=
  if timerHandle s then setThinkingSeconds S s else s.

(** ** Actions *)

Inductive Action : Type :=
  (* the engine's callbacks *)
  | OnItem (sid : nat) (item : CoreMessage)
  | OnLoading (b : bool)
  (* useConfirmation shows or clears its prompt *)
  | PromptShown (p : Prompt)
  | PromptCleared
  (* one second of the interval has elapsed *)
  | Tick
  (* the parent renders the component with other props *)
  | PropsChanged (c : AppConfig) (r : WritableRoots)
  (* TerminalChatInput, lines 452-523 *)
  | OpenOverlay
  | OpenModelOverlay
  | OpenApprovalOverlay
  | OpenHelpOverlay
  | OpenDiffOverlay (now : Z) (isGitRepo : bool) (diffOut : string)
  | OpenMCPOverlay (status : list (string * bool))
  | OnCompact
  | CompactSettled (now : Z) (r : string + Thrown)
  | InterruptAgent (now : Z)
  | SubmitInput (inputs : list CoreMessage)
  (* the overlays, lines 525-612 *)
  | OnExit
  | ModelOnSelect (now : Z) (newModel : Model)
  | ApprovalOnSelect (now : Z) (newMode : ApprovalPolicy).

(** What the handler of an action does to the state cells. *)
Definition handle (a : Action) (s : State) : State :=
  match a with
  | OnItem sid item => onItem sid item s
  | OnLoading b => setLoading b s
  | PromptShown p => set_confirmationPrompt (Some p) s
  | PromptCleared => set_confirmationPrompt None s
  | Tick => tick s
  | PropsChanged c r => set_config c r s
  | OpenOverlay => setOverlayMode history s
  | OpenModelOverlay => setOverlayMode model s
  | OpenApprovalOverlay => setOverlayMode approval s
  | OpenHelpOverlay => setOverlayMode help s
  | OpenDiffOverlay now g d => openDiffOverlay now g d s
  | OpenMCPOverlay st => handleMCPCommand st s
  | OnCompact => handleCompactStart s
  | CompactSettled now r => handleCompactSettled now r s
  | InterruptAgent now => interruptAgent now s
  | SubmitInput inputs => submitInput inputs s
  | OnExit => setOverlayMode none s
  | ModelOnSelect now m => modelOnSelect now m s
  | ApprovalOnSelect now p => approvalOnSelect now p s
  end.

(** One event of the component: the handler, then the commit. *)
Definition step (s : State) (a : Action) : State := commit s (handle a s).

Definition run (s : State) (l : list Action) : State := fold_left step l s.

Definition isNone (m : OverlayModeType) : bool :=
  match m with none => true | _ => false end.

(** [TerminalChatInput] is rendered at line 451 only without an overlay and
    with an engine. *)
Definition inputShown (s : State) : bool :=
  isNone (overlayMode s)
    && match agentRef s with Some _ => true | None => false end.

(** Which actions the rendered tree offers in a state.  A component does
    not live through a render that throws, so a compaction that failed with
    a fault that cannot be printed is not among them. *)
Definition enabled (s : State) (a : Action) : bool :=
  match a with
  | OnItem _ _ | OnLoading _ | PromptShown _ | PromptCleared
  | PropsChanged _ _ | CompactSettled _ (inl _) => true
  | CompactSettled _ (inr err) => printable err
  | Tick => timerHandle s
  | OpenOverlay | OpenModelOverlay | OpenApprovalOverlay | OpenHelpOverlay
  | OpenDiffOverlay _ _ _ | OpenMCPOverlay _ | OnCompact | InterruptAgent _
  | SubmitInput _ => inputShown s
  | OnExit => negb (isNone (overlayMode s))
  | ModelOnSelect _ _ =>
      match overlayMode s with model => true | _ => false end
  | ApprovalOnSelect _ _ =>
      match overlayMode s with approval => true | _ => false end
  end.

(** States the component can be in. *)
Inductive reachable : State -> Prop :=
  | reach_mount h c p r : reachable (mount h c p r)
  | reach_step s a :
      reachable s -> enabled s a = true -> reachable (step s a).

(** ** The explanation service, lines 75-126 *)

(** The argument of [generateText], lines 84-97. *)
Record GenerateTextRequest : Type := mkRequest {
  reqModel : Model;
  reqSystem : string;
  reqUser : string
}.

Definition nl : string := String newline EmptyString.

Definition explainSystemPrompt : string :=
  "You are an expert in shell commands and terminal operations. Your task is to provide detailed, accurate explanations of shell commands that users are considering executing. Break down each part of the command, explain what it does, identify any potential risks or side effects, and explain why someone might want to run it. Be specific about what files or systems will be affected. If the command could potentially be harmful, make sure to clearly highlight those risks.".

Definition explainUserPrompt (commandForDisplay : string) : string :=
  "Please explain this shell command in detail: `" +:+ commandForDisplay
  +:+ "`" +:+ nl +:+ nl
  +:+ "Provide a structured explanation that includes:" +:+ nl
  +:+ "1. A brief overview of what the command does" +:+ nl
  +:+ "2. A breakdown of each part of the command (flags, arguments, etc.)"
  +:+ nl
  +:+ "3. What files, directories, or systems will be affected" +:+ nl
  +:+ "4. Any potential risks or side effects" +:+ nl
  +:+ "5. Why someone might want to run this command" +:+ nl +:+ nl
  +:+ "Be specific and technical - this explanation will help the user decide whether to approve or reject the command.".

Definition msgKeyInvalid : string :=
  "Unable to generate explanation: API key is invalid or expired.".
Definition msgRateLimit : string :=
  "Unable to generate explanation: Rate limit exceeded. Please try again later.".
Definition msgUnavailable : string :=
  "Unable to generate explanation: Service is currently unavailable. Please try again later.".
Definition msgUnknown : string :=
  "Unable to generate explanation due to an error.".
Definition msgOfError (message : string) : string :=
  "Unable to generate explanation: " +:+ message.
Definition msgEmpty : string := "Unable to generate explanation.".

(** The message chosen at lines 104-122. *)
Definition explanationFallback (error : Thrown) : string :=
  match error with
  | ErrorInstance message status _ =>
      match status with
      | NumberStatus n =>
          if (n =? 401)%Z then msgKeyInvalid
          else if (n =? 429)%Z then msgRateLimit
          else if (500 <=? n)%Z then msgUnavailable
          else msgOfError message
      | _ => msgOfError message
      end
  | NotAnError _ _ => msgUnknown
  end.

(** The request of lines 84-97, for a command as [fmt] displays it. *)
Definition explainRequest (fmt : list string -> string)
    (command : list string) (m : Model) : GenerateTextRequest :=
  mkRequest m explainSystemPrompt (explainUserPrompt (fmt command)).

Section Explanation.

(** [formatCommandForDisplay] (format-command.js) and [generateText] with
    the model resolved by [getLanguageModel] are collaborators outside the
    file. *)
Variable formatCommandForDisplay : list string -> string.
Variable generateText : GenerateTextRequest -> Promise string.

(** The function of lines 75-126.  The catch block first prints the fault
    for the log (line 102); when that throws, the function rejects with
    what was thrown. *)
Definition generateCommandExplanation (command : list string) (m : Model)
  : Promise string :=
  tryCatch
    (match generateText (explainRequest formatCommandForDisplay command m)
     with
     | inr text =>
         inr (if String.eqb text "" then msgEmpty else text)
     | inl e => inl e
     end)
    (fun error =>
       match printOf error with
       | PrintThrows fault => inl fault
       | Prints _ => inr (explanationFallback error)
       end).

End Explanation.

(** ** The confirmation bridge, lines 266-301 *)

(** Modelled from the spec: [ReviewDecision] of utils/agent/review.js is not
    part of the sources; section 3 of the spec lists the decisions as
    approve-once, approve-for-session, deny, deny-with-custom-message and
    request-explanation.  The file names the last one [EXPLAIN]. *)
Inductive ReviewDecision : Type :=
  | APPROVE_ONCE
  | APPROVE_FOR_SESSION
  | DENY
  | DENY_WITH_MESSAGE
  | EXPLAIN.

Definition isExplain (d : ReviewDecision) : bool :=
  match d with EXPLAIN => true | _ => false end.

(** The patch payload is passed through untouched. *)
Record ApplyPatchCommand : Type := mkPatch { patch : string }.

(** What [requestConfirmation] resolves to. *)
Record ConfirmationResult : Type := mkResult {
  decision : ReviewDecision;
  customDenyMessage : option string
}.

(** [CommandConfirmation], the value handed back to the engine. *)
Record CommandConfirmation : Type := mkConfirmation {
  review : ReviewDecision;
  denyMessage : option string;
  applyPatch : option ApplyPatchCommand;
  explanation : option string
}.

(** An asynchronous computation: it returns, or awaits one of the two
    promises the bridge awaits and continues with the value. *)
Inductive Async (A : Type) : Type :=
  | Return (a : A)
  | AwaitConfirmation (commandForDisplay : string)
      (explanation : option string) (k : ConfirmationResult -> Async A)
  | AwaitExplanation (command : list string) (m : Model)
      (k : string -> Async A).
Arguments Return {A} a.
Arguments AwaitConfirmation {A} commandForDisplay explanation k.
Arguments AwaitExplanation {A} command m k.

Section Bridge.

Variable formatCommandForDisplay : list string -> string.

(** [getCommandConfirmation] as closed over the [model] of the render that
    built the engine. *)
Definition getCommandConfirmation (m : Model) (command : list string)
    (applyPatch : option ApplyPatchCommand) : Async CommandConfirmation :=
  let commandForDisplay := formatCommandForDisplay command in
  AwaitConfirmation commandForDisplay None (fun first =>
    if isExplain (decision first) then
      AwaitExplanation command m (fun explanation =>
        AwaitConfirmation commandForDisplay (Some explanation)
          (fun confirmResult =>
             Return (mkConfirmation (decision confirmResult)
                       (customDenyMessage confirmResult) applyPatch
                       (Some explanation))))
    else
      Return (mkConfirmation (decision first) (customDenyMessage first)
                applyPatch None)).

End Bridge.

(** What the bridge did, in order. *)
Inductive BridgeEvent : Type :=
  | Asked (commandForDisplay : string) (explanation : option string)
  | Explained (command : list string) (m : Model).

(** How an asynchronous computation ends. *)
Inductive Outcome (A : Type) : Type :=
  | Fulfilled (a : A)
  | Rejected (e : Thrown)
  | Pending.
Arguments Fulfilled {A} a.
Arguments Rejected {A} e.
Arguments Pending {A}.

(** Run a computation against the answers the user gives, in order, and the
    explanation service.  Without an answer the promise stays pending. *)
Fixpoint runAsync {A : Type} (explain : list string -> Model -> Promise string)
    (p : Async A) (answers : list ConfirmationResult)
  : Outcome A * list BridgeEvent :=
  match p with
  | Return a => (Fulfilled a, [])
  | AwaitConfirmation c e k =>
      match answers with
      | [] => (Pending, [Asked c e])
      | r :: rest =>
          let '(o, evs) := runAsync explain (k r) rest in
          (o, Asked c e :: evs)
      end
  | AwaitExplanation command m k =>
      match explain command m with
      | inl err => (Rejected err, [Explained command m])
      | inr text =>
          let '(o, evs) := runAsync explain (k text) answers in
          (o, Explained command m :: evs)
      end
  end.

Definition isExplained (e : BridgeEvent) : bool :=
  match e with Explained _ _ => true | Asked _ _ => false end.

Definition explanationCalls (evs : list BridgeEvent) : nat :=
  length (List.filter isExplained evs).

(** The bridge of an engine built while the model is [m], wired to the
    explanation service of this file. *)
Definition bridge (fmt : list string -> string)
    (generateText : GenerateTextRequest -> Promise string) (m : Model)
    (command : list string) (applyPatch : option ApplyPatchCommand)
    (answers : list ConfirmationResult)
  : Outcome CommandConfirmation * list BridgeEvent :=
  runAsync (generateCommandExplanation fmt generateText)
    (getCommandConfirmation fmt m command applyPatch) answers.

(** ** Counting calls in the trace *)

Definition isTerminate (e : Event) : bool :=
  match e with EvTerminate _ => true | _ => false end.
Definition isConstruct (e : Event) : bool :=
  match e with EvConstruct _ => true | _ => false end.
Definition isSpawn (e : Event) : bool :=
  match e with EvSpawn _ _ => true | _ => false end.

Definition count (f : Event -> bool) (s : State) : nat :=
  length (List.filter f (trace s)).

Definition terminations (s : State) : nat := count isTerminate s.
Definition constructions (s : State) : nat := count isConstruct s.
Definition notifications (s : State) : nat := count isSpawn s.

(** The timer runs: the agent is working and nobody is being asked. *)
Definition thinking (s : State) : bool := loading s && negb (isPending s).

(** What holds between events: the edge detector of the gate has seen the
    current [loading], the interval is live exactly while thinking, and an
    engine in the cell has its cleanup registered. *)
Record settled (s : State) : Prop := mkSettled {
  settled_prev : prevLoadingRef s = loading s;
  settled_timer : timerHandle s = thinking s;
  settled_zero : thinking s = false -> thinkingSeconds s = 0;
  settled_cleanup : agentRef s <> None -> agentCleanup s = true
}.

(** The gate fires on this step: notifications are on, [loading] fell, no
    prompt is shown, the platform is the wired one and an assistant item
    exists. *)
Definition fires (old new : State) : bool :=
  notifyOpt (config new) && loading old && negb (loading new)
    && negb (isPending new)
    && String.eqb (platform (host new)) "darwin"
    && match lastAssistant (items new) with Some _ => true | None => false end.

(** The edge as the specification words it: [loading] fell, no prompt is
    shown and the transcript has an item. *)
Definition busyToIdleEdge (old new : State) : bool :=
  loading old && negb (loading new) && negb (isPending new)
    && (0 <? length (items new))%nat.

(** The identity of a session: model, config object, writable roots. *)
Definition sameIdentity (a : AgentLoop) (s : State) : Prop :=
  engModel a = curModel s /\ engConfig a = config s
  /\ engRoots a = additionalWritableRoots s.

Fixpoint noChar (c : ascii) (s : string) : bool :=
  match s with
  | EmptyString => true
  | String a rest => negb (Ascii.eqb a c) && noChar c rest
  end.

(** Every double quote is preceded by a backslash. *)
Fixpoint quotesEscaped (s : string) : bool :=
  match s with
  | EmptyString => true
  | String a rest =>
      if Ascii.eqb a dquote then false
      else if Ascii.eqb a backslash then
        match rest with
        | String b rest' =>
            if Ascii.eqb b dquote then quotesEscaped rest'
            else quotesEscaped rest
        | EmptyString => true
        end
      else quotesEscaped rest
  end.

(** The calls each effect makes, as lists. *)
Definition terminateEvents (s : State) : list Event :=
  match agentRef s with
  | Some a => [EvTerminate (engineId a)]
  | None => []
  end.

Definition notifyEvents (s : State) : list Event :=
  if notifyOpt (config s) && gateOpen s
       && String.eqb (platform (host s)) "darwin"
  then match lastAssistant (items s) with
       | Some m => [spawnNotification s m]
       | None => []
       end
  else [].

(** The number of engines in the cell. *)
Definition engines (s : State) : nat :=
  match agentRef s with Some _ => 1 | None => 0 end.

Definition cancelEvents (s : State) : list Event :=
  match agentRef s with
  | Some a => [EvCancel (engineId a)]
  | None => []
  end.

(** Every action of a script is offered when its turn comes. *)
Fixpoint allEnabled (s : State) (l : list Action) : bool :=
  match l with
  | [] => true
  | a :: rest => enabled s a && allEnabled (step s a) rest
  end.

(** The [status] property of a thrown value. *)
Definition statusOf (e : Thrown) : StatusField :=
  match e with
  | ErrorInstance _ st _ => st
  | NotAnError st _ => st
  end.

(** The cells that no effect writes: two states agree on them. *)
Record sameCells (s s' : State) : Prop := mkSameCells {
  sc_host : host s' = host s;
  sc_config : config s' = config s;
  sc_roots : additionalWritableRoots s' = additionalWritableRoots s;
  sc_model : curModel s' = curModel s;
  sc_loading : loading s' = loading s;
  sc_policy : approvalPolicy s' = approvalPolicy s;
  sc_items : items s' = items s;
  sc_itemsRef : itemsRef s' = itemsRef s;
  sc_mcp : mcpServerStatus s' = mcpServerStatus s;
  sc_overlay : overlayMode s' = overlayMode s;
  sc_prompt : confirmationPrompt s' = confirmationPrompt s
}.

(** ** Sample data *)

Definition sampleHost : Host := mkHost "darwin" "~/proj".
Definition sampleConfig : AppConfig := mkConfig 0 "A" None true.
Definition sampleRoots : WritableRoots := mkRoots 0 [].
Definition sampleState : State :=
  mount sampleHost sampleConfig suggest sampleRoots.
Definition samplePrompt : Prompt := mkPrompt 1 "rm -rf build" None.
Definition hello : CoreMessage := mkMessage None None user "hello".
Definition answer : CoreMessage := mkMessage None None assistant "done".

(** A session in which the model overlay is open while the engine asks for
    a confirmation. *)
Definition askedUnderModelOverlay : State :=
  run sampleState
    [SubmitInput [hello]; OnLoading true; OpenModelOverlay;
     PromptShown samplePrompt].

Definition sampleFmt (command : list string) : string :=
  String.concat " " command.

(** A text generation that answers, and one that throws a plain object
    carrying [status: 401]. *)
Definition generateTextOk (_ : GenerateTextRequest) : Promise string :=
  inr "Removes the build directory.".
Definition generateTextPlain401 (_ : GenerateTextRequest) : Promise string :=
  inl (NotAnError (NumberStatus 401) (Prints "[object Object]")).
Definition generateTextError503 (_ : GenerateTextRequest) : Promise string :=
  inl (ErrorInstance "upstream" (NumberStatus 503)
         (Prints "Error: upstream")).

(** A Symbol: a template literal cannot print it and throws a TypeError. *)
Definition symbolFault : Thrown :=
  NotAnError NoStatus
    (PrintThrows
       (ErrorInstance "Cannot convert a Symbol value to a string" NoStatus
          (Prints "TypeError: Cannot convert a Symbol value to a string"))).
Definition generateTextSymbol (_ : GenerateTextRequest) : Promise string :=
  inl symbolFault.

Definition askExplain : ConfirmationResult := mkResult EXPLAIN None.
Definition denyNotSafe : ConfirmationResult :=
  mkResult DENY_WITH_MESSAGE (Some "not safe").
Definition samplePatch : option ApplyPatchCommand :=
  Some (mkPatch "*** Begin Patch").

(** Sixty times the letter e with an acute accent, two bytes each, and one
    emoji outside the basic plane, four bytes. *)
Definition accented60 : string := String.concat "" (repeat "é" 60).

Definition grinningFace : string := "😀".

(** ** Further observations of the state *)

(** The engine in the cell, if any, was built for the model, the config
    object and the writable roots of the current render and holds the
    current approval policy. *)
Definition engineCurrent (s : State) : Prop :=
  match agentRef s with
  | Some e =>
      engModel e = curModel s
      /\ configRef (engConfig e) = configRef (config s)
      /\ rootsRef (engRoots e) = rootsRef (additionalWritableRoots s)
      /\ engPolicy e = approvalPolicy s
  | None => True
  end.



(** [isNew], line 455. *)
Definition isNew (s : State) : bool := Nat.eqb (length (items s)) 0.

(** [userMsgCount], line 414. *)
Definition isUser (m : CoreMessage) : bool :=
  match role m with user => true | _ => false end.
Definition userMsgCount (s : State) : nat :=
  length (List.filter isUser (items s)).

Definition isOpenMCP (a : Action) : bool :=
  match a with OpenMCPOverlay _ => true | _ => false end.

Definition isAsked (e : BridgeEvent) : bool :=
  match e with Asked _ _ => true | Explained _ _ => false end.

(** How many times the bridge asked the user. *)
Definition questions (evs : list BridgeEvent) : nat :=
  length (List.filter isAsked evs).

(** The component in the middle of a compaction. *)
Definition compactingState : State := step sampleState OnCompact.

(** ** Proof automation for the handlers *)

Ltac handlers :=
  unfold handle, onItem, handleCompactStart, handleCompactSettled,
    handleMCPCommand, openDiffOverlay, interruptAgent, submitInput,
    modelOnSelect, cancelCurrent, approvalOnSelect, tick.

Ltac by_handler s a :=
  destruct s as [? ? ? ? ? ? ? ? ? ? ? ? [ag|] ? ? [|] ? ?]; destruct a;
  handlers; cbn;
  repeat match goal with
    | |- context [if ?b then _ else _] => destruct b eqn:?
    | |- context [match ?x with inl _ => _ | inr _ => _ end] => destruct x
    | |- context [printOf ?e] => destruct (printOf e)
    end;
  cbn; try reflexivity.

(** * Properties *)

(** ** Frame lemmas: what the effects leave alone *)

Lemma sameCells_refl s : sameCells s s.
Proof. split; reflexivity. Qed.

Lemma sameCells_trans s1 s2 s3 :
  sameCells s1 s2 -> sameCells s2 s3 -> sameCells s1 s3.
Proof.
  intros [] []; split; congruence.
Qed.

Lemma sameCells_if (b : bool) (f : State -> State) s :
  (forall x, sameCells x (f x)) -> sameCells s (if b then f s else s).
Proof. intros H; destruct b; [apply H | apply sameCells_refl]. Qed.

Lemma terminateCurrent_cells s : sameCells s (terminateCurrent s).
Proof. unfold terminateCurrent; destruct (agentRef s); split; reflexivity. Qed.

Lemma agentEffectCleanup_cells s : sameCells s (agentEffectCleanup s).
Proof.
  unfold agentEffectCleanup, terminateCurrent.
  destruct (agentRef s); split; reflexivity.
Qed.

Lemma agentEffectBody_cells s : sameCells s (agentEffectBody s).
Proof.
  unfold agentEffectBody, terminateCurrent.
  destruct (confirmationPrompt s) eqn:Hp; [split; reflexivity|].
  destruct (agentRef s); split; reflexivity.
Qed.

Lemma timerEffectCleanup_cells s : sameCells s (timerEffectCleanup s).
Proof. split; reflexivity. Qed.

Lemma timerEffectBody_cells s : sameCells s (timerEffectBody s).
Proof.
  unfold timerEffectBody.
  destruct (loading s && negb (isPending s)); split; reflexivity.
Qed.

Lemma notifyEffectBody_cells s : sameCells s (notifyEffectBody s).
Proof.
  unfold notifyEffectBody.
  destruct (negb (notifyOpt (config s))); [split; reflexivity|].
  destruct (gateOpen s); [|split; reflexivity].
  destruct (String.eqb (platform (host s)) "darwin"); [|split; reflexivity].
  destruct (lastAssistant (items s)); split; reflexivity.
Qed.

(** ** Each effect as one record update *)

Lemma agentEffectCleanup_eq s :
  agentEffectCleanup s =
  mkState (host s) (config s) (additionalWritableRoots s) (curModel s)
    (loading s) (approvalPolicy s) (thinkingSeconds s) (items s) (itemsRef s)
    (mcpServerStatus s) (overlayMode s) (confirmationPrompt s) None
    (prevLoadingRef s) (agentCleanup s) (timerHandle s) (nextEngine s)
    (trace s ++ terminateEvents s).
Proof.
  unfold agentEffectCleanup, terminateCurrent, terminateEvents.
  destruct (agentRef s); cbn; rewrite ?app_nil_r; reflexivity.
Qed.

Lemma agentEffectBody_eq s :
  agentEffectBody s =
  mkState (host s) (config s) (additionalWritableRoots s) (curModel s)
    (loading s) (approvalPolicy s) (thinkingSeconds s) (items s) (itemsRef s)
    (mcpServerStatus s) (overlayMode s) (confirmationPrompt s)
    (if isPending s then agentRef s else Some (newAgentLoop s))
    (prevLoadingRef s) (negb (isPending s)) (timerHandle s)
    (if isPending s then nextEngine s else S (nextEngine s))
    (trace s ++ if isPending s then []
                else terminateEvents s ++ [EvConstruct (newAgentLoop s)]).
Proof.
  destruct s as [? ? ? ? ? ? ? ? ? ? ? [p|] [a|] ? ? ? ? ?];
    unfold agentEffectBody, newAgentLoop; cbn;
    rewrite <- ?app_assoc, ?app_nil_r; reflexivity.
Qed.

Lemma timerEffectCleanup_eq s :
  timerEffectCleanup s =
  mkState (host s) (config s) (additionalWritableRoots s) (curModel s)
    (loading s) (approvalPolicy s) (thinkingSeconds s) (items s) (itemsRef s)
    (mcpServerStatus s) (overlayMode s) (confirmationPrompt s) (agentRef s)
    (prevLoadingRef s) (agentCleanup s) false (nextEngine s) (trace s).
Proof. reflexivity. Qed.

Lemma timerEffectBody_eq s :
  timerEffectBody s =
  mkState (host s) (config s) (additionalWritableRoots s) (curModel s)
    (loading s) (approvalPolicy s) 0 (items s) (itemsRef s)
    (mcpServerStatus s) (overlayMode s) (confirmationPrompt s) (agentRef s)
    (prevLoadingRef s) (agentCleanup s) (thinking s || timerHandle s)
    (nextEngine s) (trace s).
Proof.
  unfold timerEffectBody, thinking.
  destruct (loading s && negb (isPending s)); reflexivity.
Qed.

Lemma notifyEffectBody_eq s :
  notifyEffectBody s =
  mkState (host s) (config s) (additionalWritableRoots s) (curModel s)
    (loading s) (approvalPolicy s) (thinkingSeconds s) (items s) (itemsRef s)
    (mcpServerStatus s) (overlayMode s) (confirmationPrompt s) (agentRef s)
    (loading s) (agentCleanup s) (timerHandle s) (nextEngine s)
    (trace s ++ notifyEvents s).
Proof.
  unfold notifyEffectBody, notifyEvents.
  destruct (notifyOpt (config s)); cbn; rewrite ?app_nil_r; [|reflexivity].
  destruct (gateOpen s); cbn; rewrite ?app_nil_r; [|reflexivity].
  destruct (String.eqb (platform (host s)) "darwin"); cbn;
    rewrite ?app_nil_r; [|reflexivity].
  destruct (lastAssistant (items s)); cbn; rewrite ?app_nil_r; reflexivity.
Qed.

Lemma commit_cells old new : sameCells new (commit old new).
Proof.
  unfold commit; cbv zeta.
  repeat (eapply sameCells_trans;
          [| apply sameCells_if;
             first [ apply notifyEffectBody_cells
                   | apply timerEffectBody_cells
                   | apply agentEffectBody_cells
                   | apply timerEffectCleanup_cells
                   | apply agentEffectCleanup_cells ] ]).
  apply sameCells_refl.
Qed.

Lemma step_cells s a : sameCells (handle a s) (step s a).
Proof. apply commit_cells. Qed.

(** ** The commit as one record update *)

Lemma commit_eq old new :
  let a := agentDepsChanged old new in
  let t := timerDepsChanged old new in
  let n := notifyDepsChanged old new in
  commit old new =
  mkState (host new) (config new) (additionalWritableRoots new)
    (curModel new) (loading new) (approvalPolicy new)
    (if t then 0 else thinkingSeconds new) (items new) (itemsRef new)
    (mcpServerStatus new) (overlayMode new) (confirmationPrompt new)
    (if a then
       if isPending new
       then (if agentCleanup new then None else agentRef new)
       else Some (newAgentLoop new)
     else agentRef new)
    (if n then loading new else prevLoadingRef new)
    (if a then negb (isPending new) else agentCleanup new)
    (if t then thinking new else timerHandle new)
    (if a && negb (isPending new) then S (nextEngine new)
     else nextEngine new)
    (trace new
       ++ (if a && agentCleanup new then terminateEvents new else [])
       ++ (if a && negb (isPending new)
           then (if agentCleanup new then [] else terminateEvents new)
                  ++ [EvConstruct (newAgentLoop new)]
           else [])
       ++ (if n then notifyEvents new else [])).
Proof.
  intros a t n. unfold commit. fold a t n.
  destruct a, t, n; clear;
    destruct new as [? ? ? ? ? ? ? ? ? ? ? [p|] [ag|] ? [|] ? ? ?]; cbn;
    rewrite ?agentEffectCleanup_eq; cbn;
    rewrite ?agentEffectBody_eq; cbn;
    rewrite ?timerEffectBody_eq; cbn;
    rewrite ?notifyEffectBody_eq; cbn;
    unfold thinking, newAgentLoop; cbn;
    rewrite ?Bool.orb_false_r, ?List.app_nil_r, <- ?List.app_assoc; cbn;
    reflexivity.
Qed.

Lemma commit_thinkingSeconds old new :
  thinkingSeconds (commit old new) =
  if timerDepsChanged old new then 0 else thinkingSeconds new.
Proof. rewrite commit_eq; reflexivity. Qed.

Lemma commit_timerHandle old new :
  timerHandle (commit old new) =
  if timerDepsChanged old new then thinking new else timerHandle new.
Proof. rewrite commit_eq; reflexivity. Qed.

Lemma commit_prevLoadingRef old new :
  prevLoadingRef (commit old new) =
  if notifyDepsChanged old new then loading new else prevLoadingRef new.
Proof. rewrite commit_eq; reflexivity. Qed.

Lemma commit_agentRef old new :
  agentRef (commit old new) =
  if agentDepsChanged old new then
    if isPending new
    then (if agentCleanup new then None else agentRef new)
    else Some (newAgentLoop new)
  else agentRef new.
Proof. rewrite commit_eq; reflexivity. Qed.

Lemma commit_agentCleanup old new :
  agentCleanup (commit old new) =
  if agentDepsChanged old new then negb (isPending new)
  else agentCleanup new.
Proof. rewrite commit_eq; reflexivity. Qed.

Lemma commit_trace old new :
  trace (commit old new) =
  trace new
    ++ (if agentDepsChanged old new && agentCleanup new
        then terminateEvents new else [])
    ++ (if agentDepsChanged old new && negb (isPending new)
        then (if agentCleanup new then [] else terminateEvents new)
               ++ [EvConstruct (newAgentLoop new)]
        else [])
    ++ (if notifyDepsChanged old new then notifyEvents new else []).
Proof. rewrite commit_eq; reflexivity. Qed.

Lemma commit_thinking old new : thinking (commit old new) = thinking new.
Proof.
  unfold thinking, isPending.
  rewrite (sc_loading _ _ (commit_cells old new)).
  rewrite (sc_prompt _ _ (commit_cells old new)). reflexivity.
Qed.

Lemma ApprovalPolicy_eqb_eq a b : ApprovalPolicy_eqb a b = true <-> a = b.
Proof. destruct a, b; cbn; split; congruence. Qed.

(** ** What the handlers leave alone *)

Lemma handle_prevLoadingRef a s :
  prevLoadingRef (handle a s) = prevLoadingRef s.
Proof. by_handler s a. Qed.

Lemma handle_agentCleanup a s : agentCleanup (handle a s) = agentCleanup s.
Proof. by_handler s a. Qed.

Lemma handle_timerHandle a s : timerHandle (handle a s) = timerHandle s.
Proof. by_handler s a. Qed.

Lemma handle_nextEngine a s : nextEngine (handle a s) = nextEngine s.
Proof. by_handler s a. Qed.

Lemma handle_host a s : host (handle a s) = host s.
Proof. by_handler s a. Qed.

Lemma handle_thinkingSeconds a s :
  thinkingSeconds (handle a s) =
  match a with
  | Tick => if timerHandle s then S (thinkingSeconds s) else thinkingSeconds s
  | _ => thinkingSeconds s
  end.
Proof. by_handler s a. Qed.

Lemma handle_agentRef a s :
  agentRef (handle a s) =
  match a with
  | ApprovalOnSelect _ p =>
      if ApprovalPolicy_eqb p (approvalPolicy s) then agentRef s
      else option_map (withPolicy p) (agentRef s)
  | _ => agentRef s
  end.
Proof. by_handler s a. Qed.

Lemma handle_agentRef_None a s :
  agentRef (handle a s) = None <-> agentRef s = None.
Proof.
  rewrite handle_agentRef. destruct a; try tauto.
  destruct (ApprovalPolicy_eqb _ _); [tauto|].
  destruct (agentRef s); cbn; split; congruence.
Qed.

(** ** Dependency checks *)

Lemma option_nat_eqb_eq a b : option_nat_eqb a b = true -> a = b.
Proof.
  destruct a, b; cbn; try congruence.
  intros H; apply Nat.eqb_eq in H; congruence.
Qed.

Lemma option_nat_eqb_refl a : option_nat_eqb a a = true.
Proof. destruct a; cbn; [apply Nat.eqb_refl | reflexivity]. Qed.

Lemma promptRefOf_isPending s s' :
  promptRefOf s = promptRefOf s' -> isPending s = isPending s'.
Proof.
  unfold promptRefOf, isPending.
  destruct (confirmationPrompt s), (confirmationPrompt s'); congruence.
Qed.

Lemma timerDeps_same old new :
  timerDepsChanged old new = false ->
  loading old = loading new /\ isPending old = isPending new.
Proof.
  unfold timerDepsChanged. intros H.
  apply negb_false_iff, andb_true_iff in H. destruct H as [H1 H2].
  apply Bool.eqb_prop in H1. apply option_nat_eqb_eq in H2.
  split; [assumption | apply promptRefOf_isPending; assumption].
Qed.

Lemma notifyDeps_same old new :
  notifyDepsChanged old new = false ->
  loading old = loading new.
Proof.
  unfold notifyDepsChanged. intros H.
  apply negb_false_iff in H. repeat (apply andb_true_iff in H; destruct H as [H ?]).
  repeat match goal with H : _ && _ = true |- _ =>
    apply andb_true_iff in H; destruct H end.
  match goal with H : Bool.eqb (loading _) _ = true |- _ =>
    apply Bool.eqb_prop in H; exact H end.
Qed.

(** ** The invariant *)

Lemma mount_settled h c p r : settled (mount h c p r).
Proof.
  unfold mount, initialState. rewrite ?agentEffectBody_eq; cbn.
  rewrite ?timerEffectBody_eq; cbn. rewrite ?notifyEffectBody_eq; cbn.
  split; cbn; congruence.
Qed.

Lemma step_settled s a : settled s -> settled (step s a).
Proof.
  intros [H1 H2 H3 H4]. unfold step. split.
  - rewrite commit_prevLoadingRef, (sc_loading _ _ (commit_cells _ _)).
    destruct (notifyDepsChanged s (handle a s)) eqn:E; [reflexivity|].
    apply notifyDeps_same in E. rewrite handle_prevLoadingRef. congruence.
  - rewrite commit_timerHandle, commit_thinking.
    destruct (timerDepsChanged s (handle a s)) eqn:E; [reflexivity|].
    apply timerDeps_same in E. destruct E as [E1 E2].
    rewrite handle_timerHandle, H2. unfold thinking. congruence.
  - rewrite commit_thinking, commit_thinkingSeconds.
    destruct (timerDepsChanged s (handle a s)) eqn:E; [reflexivity|].
    apply timerDeps_same in E. destruct E as [E1 E2]. intros Hth.
    assert (Hs : thinking s = false) by (unfold thinking in *; congruence).
    rewrite handle_thinkingSeconds.
    rewrite <- H2 in Hs. rewrite Hs.
    rewrite H2 in Hs. specialize (H3 Hs). destruct a; assumption.
  - rewrite commit_agentRef, commit_agentCleanup.
    rewrite handle_agentCleanup.
    assert (Hk : agentRef (handle a s) <> None -> agentCleanup s = true).
    { intros Hn. apply H4. rewrite <- (handle_agentRef_None a s). exact Hn. }
    destruct (agentDepsChanged s (handle a s)); [|exact Hk].
    destruct (isPending (handle a s)); cbn; [|reflexivity].
    destruct (agentCleanup s) eqn:Ec; [congruence|]. intros Hn.
    specialize (Hk Hn). congruence.
Qed.

Lemma reachable_settled s : reachable s -> settled s.
Proof.
  induction 1; [apply mount_settled | apply step_settled; assumption].
Qed.

(** ** What each handler does to each cell *)

Lemma handle_items a s :
  items (handle a s) =
  match a with
  | OnItem _ item => items s ++ [item]
  | OpenDiffOverlay now g d => items s ++ [diffItem now g d]
  | CompactSettled _ (inl summary) => [summaryItem summary]
  | CompactSettled now (inr err) =>
      match printOf err with
      | Prints text => items s ++ [compactErrorNotice now text]
      | PrintThrows _ => items s
      end
  | InterruptAgent now =>
      match agentRef s with
      | Some _ => items s ++ [interruptNotice now]
      | None => items s
      end
  | SubmitInput inputs => items s ++ inputs
  | ModelOnSelect now m => items s ++ [modelSwitchNotice now m]
  | ApprovalOnSelect now p =>
      if ApprovalPolicy_eqb p (approvalPolicy s) then items s
      else items s ++ [approvalSwitchNotice now p]
  | _ => items s
  end.
Proof. by_handler s a. Qed.

Lemma handle_loading a s :
  loading (handle a s) =
  match a with
  | OnLoading b => b
  | OnCompact => true
  | CompactSettled _ (inl _) | ModelOnSelect _ _ => false
  | CompactSettled _ (inr err) =>
      match printOf err with Prints _ => false | PrintThrows _ => loading s end
  | InterruptAgent _ =>
      match agentRef s with Some _ => false | None => loading s end
  | _ => loading s
  end.
Proof. by_handler s a. Qed.

Lemma handle_confirmationPrompt a s :
  confirmationPrompt (handle a s) =
  match a with
  | PromptShown p => Some p
  | PromptCleared => None
  | _ => confirmationPrompt s
  end.
Proof. by_handler s a. Qed.

Lemma handle_overlayMode a s :
  overlayMode (handle a s) =
  match a with
  | OpenOverlay => history
  | OpenModelOverlay => model
  | OpenApprovalOverlay => approval
  | OpenHelpOverlay => help
  | OpenMCPOverlay _ => mcp
  | OpenDiffOverlay _ _ _ | OnExit | ModelOnSelect _ _ => none
  | ApprovalOnSelect _ p =>
      if ApprovalPolicy_eqb p (approvalPolicy s) then overlayMode s else none
  | _ => overlayMode s
  end.
Proof. by_handler s a. Qed.

Lemma handle_curModel a s :
  curModel (handle a s) =
  match a with ModelOnSelect _ m => m | _ => curModel s end.
Proof. by_handler s a. Qed.

Lemma handle_approvalPolicy a s :
  approvalPolicy (handle a s) =
  match a with ApprovalOnSelect _ p => p | _ => approvalPolicy s end.
Proof.
  by_handler s a.
  all: match goal with H : ApprovalPolicy_eqb _ _ = true |- _ =>
    apply ApprovalPolicy_eqb_eq in H; congruence end.
Qed.

Lemma handle_config a s :
  config (handle a s) =
  match a with PropsChanged c _ => c | _ => config s end.
Proof. by_handler s a. Qed.

Lemma handle_roots a s :
  additionalWritableRoots (handle a s) =
  match a with PropsChanged _ r => r | _ => additionalWritableRoots s end.
Proof. by_handler s a. Qed.

Lemma handle_trace a s :
  trace (handle a s) =
  trace s ++
  match a with
  | OnItem sid item => [EvSaveRollout sid (items s ++ [item])]
  | InterruptAgent _ => cancelEvents s
  | SubmitInput inputs =>
      match agentRef s with
      | Some e => [EvRun (engineId e) inputs]
      | None => []
      end
  | ModelOnSelect _ m => cancelEvents s ++ [saveConfigCall (config s) m]
  | _ => []
  end.
Proof. by_handler s a; rewrite ?List.app_nil_r, <- ?List.app_assoc; reflexivity. Qed.

Lemma agentDeps_handle a s :
  agentDepsChanged s (handle a s) =
  match a with
  | ModelOnSelect _ m => negb (String.eqb (curModel s) m)
  | PropsChanged c r =>
      negb (Nat.eqb (configRef (config s)) (configRef c)
            && Nat.eqb (rootsRef (additionalWritableRoots s)) (rootsRef r))
  | _ => false
  end.
Proof.
  unfold agentDepsChanged.
  rewrite handle_curModel, handle_config, handle_roots.
  destruct a;
    rewrite ?String.eqb_refl, ?Nat.eqb_refl, ?Bool.andb_true_r;
    reflexivity.
Qed.

Lemma timerDeps_refl s : timerDepsChanged s s = false.
Proof.
  unfold timerDepsChanged.
  rewrite Bool.eqb_reflx, option_nat_eqb_refl. reflexivity.
Qed.

Lemma notifyDeps_refl s : notifyDepsChanged s s = false.
Proof.
  unfold notifyDepsChanged.
  rewrite !Bool.eqb_reflx, option_nat_eqb_refl, Nat.eqb_refl. reflexivity.
Qed.

Lemma agentDeps_refl s : agentDepsChanged s s = false.
Proof.
  unfold agentDepsChanged.
  rewrite String.eqb_refl, !Nat.eqb_refl. reflexivity.
Qed.

(** A render that changes nothing runs no effect. *)
Lemma commit_same s : commit s s = s.
Proof.
  rewrite commit_eq, agentDeps_refl, timerDeps_refl, notifyDeps_refl.
  destruct s; cbn. rewrite List.app_nil_r. reflexivity.
Qed.

Lemma reachable_run s l :
  reachable s -> allEnabled s l = true -> reachable (run s l).
Proof.
  revert s. induction l as [|a l IH]; intros s Hs Hl; [exact Hs|].
  cbn in Hl. apply andb_true_iff in Hl. destruct Hl as [Ha Hl].
  cbn. apply IH; [apply reach_step; assumption | exact Hl].
Qed.

(** ** Counting *)

Lemma filter_length_app (f : Event -> bool) l1 l2 :
  length (List.filter f (l1 ++ l2)) =
  length (List.filter f l1) + length (List.filter f l2).
Proof. rewrite List.filter_app, List.length_app. reflexivity. Qed.

Lemma terminateEvents_spawn s :
  length (List.filter isSpawn (terminateEvents s)) = 0.
Proof. unfold terminateEvents; destruct (agentRef s); reflexivity. Qed.

Lemma handle_notifications a s : notifications (handle a s) = notifications s.
Proof.
  unfold notifications, count. rewrite handle_trace, filter_length_app.
  destruct a; unfold cancelEvents; try destruct (agentRef s); cbn;
    rewrite ?Nat.add_0_r; reflexivity.
Qed.

(** Without an edge seen by the detector the gate emits nothing. *)
Lemma notifyEvents_no_edge s :
  prevLoadingRef s = loading s -> notifyEvents s = [].
Proof.
  intros H. unfold notifyEvents, gateOpen. rewrite H.
  destruct (loading s); cbn; rewrite ?andb_false_r; reflexivity.
Qed.

Lemma notifyEvents_spawn s :
  Forall (fun e => isSpawn e = true) (notifyEvents s).
Proof.
  unfold notifyEvents.
  destruct (_ && _); [|constructor].
  destruct (lastAssistant (items s)); repeat constructor.
Qed.

(** * The transcript *)

(** C3, as stated, does not hold: it is not true that every operation leaves
    the old transcript as a prefix of the new one.  When a compaction
    succeeds, line 156 replaces the whole transcript. *)
Lemma transcript_prefix_fails_on_compaction :
  ~ (forall s a, reachable s -> enabled s a = true ->
       items s `prefix_of` items (step s a)).
Proof.
  intros H.
  specialize (H (run sampleState [SubmitInput [hello]])
                (CompactSettled 0 (inl "summary"))).
  destruct H as [k Hk].
  - apply reachable_run; [apply reach_mount | reflexivity].
  - reflexivity.
  - vm_compute in Hk. discriminate Hk.
Qed.

(** C3 (amended): engine output, user input, the interruption notice, the
    model-switch notice, the approval-mode-switch notice, the diff display
    and a failed compaction leave the old transcript as a prefix of the new
    one, and so does every other event; a successful compaction replaces the
    transcript with the single assistant item that holds the summary. *)
Theorem transcript_append_only_except_compaction s a :
  match a with
  | CompactSettled _ (inl summary) =>
      items (step s a) = [summaryItem summary]
  | _ => items s `prefix_of` items (step s a)
  end.
Proof.
  unfold step. rewrite (sc_items _ _ (commit_cells _ _)), handle_items.
  destruct a as [ | | | | | | | | | | | | | ? [?|?] | | | | | ];
    try reflexivity;
    try (destruct (agentRef s));
    try (destruct (ApprovalPolicy_eqb _ _));
    try match goal with |- context [printOf ?e] => destruct (printOf e) end;
    first [ exists []; symmetry; apply List.app_nil_r
          | eexists; reflexivity ].
Qed.

(** * Interruption *)



(** * Approval policy *)

(** C8: selecting the policy already in force changes nothing; selecting
    another one stores it, overwrites the policy field of the engine that is
    in the cell and no other field of it, appends the system item "Switched
    approval mode to ..." with the id "switch-approval-" followed by the
    time, closes the overlay and makes no call at all: the engine is neither
    terminated nor constructed anew nor cancelled, and [loading] stays as it
    was. *)
Theorem approval_policy_updated_in_place s now p :
  reachable s ->
  (p = approvalPolicy s -> step s (ApprovalOnSelect now p) = s)
  /\ (p <> approvalPolicy s ->
      let s' := step s (ApprovalOnSelect now p) in
      approvalPolicy s' = p
      /\ agentRef s' =
           match agentRef s with
           | Some e =>
               Some (mkAgent (engineId e) (sessionId e) (engModel e)
                       (engConfig e) (engInstructions e) p (engRoots e))
           | None => None
           end
      /\ items s' =
           items s
             ++ [mkMessage (Some ("switch-approval-" +:+ decimal now)) None
                   system
                   ("Switched approval mode to "
                      +:+ match p with
                          | suggest => "suggest"
                          | auto_edit => "auto-edit"
                          | full_auto => "full-auto"
                          end)]
      /\ trace s' = trace s
      /\ loading s' = loading s
      /\ overlayMode s' = none
      /\ agentRef s' = option_map (withPolicy p) (agentRef s)
      /\ items s' = items s ++ [approvalSwitchNotice now p]).
Proof.
  intros Hr. apply reachable_settled in Hr. destruct Hr as [Hprev _ _ _].
  split.
  - intros ->. unfold step, handle, approvalOnSelect.
    replace (ApprovalPolicy_eqb (approvalPolicy s) (approvalPolicy s))
      with true by (destruct (approvalPolicy s); reflexivity).
    apply commit_same.
  - intros Hne s'. subst s'. unfold step.
    assert (Hb : ApprovalPolicy_eqb p (approvalPolicy s) = false).
    { destruct (ApprovalPolicy_eqb p (approvalPolicy s)) eqn:E;
        [apply ApprovalPolicy_eqb_eq in E; contradiction | reflexivity]. }
    assert (Ha : agentRef (commit s (handle (ApprovalOnSelect now p) s)) =
                 option_map (withPolicy p) (agentRef s)).
    { rewrite commit_agentRef, agentDeps_handle, handle_agentRef, Hb.
      reflexivity. }
    assert (Hi : items (commit s (handle (ApprovalOnSelect now p) s)) =
                 items s ++ [approvalSwitchNotice now p]).
    { rewrite (sc_items _ _ (commit_cells _ _)), handle_items, Hb.
      reflexivity. }
    split.
    { rewrite (sc_policy _ _ (commit_cells _ _)), handle_approvalPolicy.
      reflexivity. }
    split.
    { rewrite Ha. destruct (agentRef s); reflexivity. }
    split.
    { rewrite Hi. destruct p; reflexivity. }
    split.
    { rewrite commit_trace, agentDeps_handle.
      rewrite notifyEvents_no_edge
        by (rewrite handle_prevLoadingRef, handle_loading; exact Hprev).
      rewrite handle_trace. cbn.
      destruct (notifyDepsChanged _ _); rewrite !List.app_nil_r;
        reflexivity. }
    split.
    { rewrite (sc_loading _ _ (commit_cells _ _)), handle_loading.
      reflexivity. }
    split.
    { rewrite (sc_overlay _ _ (commit_cells _ _)), handle_overlayMode, Hb.
      reflexivity. }
    split; [exact Ha | exact Hi].
Qed.

Lemma approval_policy_updated_in_place_witness :
  step sampleState (ApprovalOnSelect 3 suggest) = sampleState
  /\ trace (step sampleState (ApprovalOnSelect 3 full_auto)) =
     trace sampleState
  /\ option_map engPolicy
       (agentRef (step sampleState (ApprovalOnSelect 3 full_auto))) =
     Some full_auto
  /\ items (step sampleState (ApprovalOnSelect 3 full_auto)) =
     items sampleState
       ++ [mkMessage (Some "switch-approval-3") None system
             "Switched approval mode to full-auto"].
Proof.
  destruct (approval_policy_updated_in_place sampleState 3 suggest
              (reach_mount _ _ _ _)) as [Hsame _].
  destruct (approval_policy_updated_in_place sampleState 3 full_auto
              (reach_mount _ _ _ _)) as [_ Hother].
  split; [apply Hsame; reflexivity|].
  destruct Hother as (_ & Hagent & Hitems & Htrace & _); [discriminate|].
  split; [exact Htrace|]. split; [rewrite Hagent; reflexivity|].
  exact Hitems.
Defined.

(** * Model selection *)

(** C10: [onSelect] of the model overlay, whatever [loading] is: it asks the
    engine in the cell to cancel and then calls [saveConfig] with the new
    model, before anything the commit does (the recreation included); after
    the step [loading] is false, the model is the new one, the notice
    "Switched model to ..." ends the transcript and no overlay is shown. *)
Theorem model_select_interrupts_first s now m :
  let s' := step s (ModelOnSelect now m) in
  (exists evs, trace s' =
     trace s ++ cancelEvents s ++ [saveConfigCall (config s) m] ++ evs)
  /\ loading s' = false
  /\ curModel s' = m
  /\ items s' = items s ++ [modelSwitchNotice now m]
  /\ content (modelSwitchNotice now m) = "Switched model to " +:+ m
  /\ role (modelSwitchNotice now m) = system
  /\ overlayMode s' = none
  /\ saveConfigCall (config s) m =
       EvSaveConfig (mkConfig (configRef (config s)) m
                       (instructions (config s)) (notifyOpt (config s)))
  /\ items s' =
       items s
         ++ [mkMessage (Some ("switch-model-" +:+ decimal now)) None system
               ("Switched model to " +:+ m)]
  /\ cancelEvents s =
       match agentRef s with
       | Some e => [EvCancel (engineId e)]
       | None => []
       end.
Proof.
  cbv zeta. unfold step. repeat split.
  - rewrite commit_trace, handle_trace.
    rewrite <- !List.app_assoc. eexists. reflexivity.
  - rewrite (sc_loading _ _ (commit_cells _ _)), handle_loading.
    reflexivity.
  - rewrite (sc_model _ _ (commit_cells _ _)), handle_curModel. reflexivity.
  - rewrite (sc_items _ _ (commit_cells _ _)), handle_items. reflexivity.
  - rewrite (sc_overlay _ _ (commit_cells _ _)), handle_overlayMode.
    reflexivity.
  - rewrite (sc_items _ _ (commit_cells _ _)), handle_items. reflexivity.
Qed.

(** * Overlay mode *)

Lemma step_overlayMode s a :
  overlayMode (step s a) = overlayMode (handle a s).
Proof. apply (sc_overlay _ _ (commit_cells _ _)). Qed.

(** No handler of the file selects the diff overlay. *)
Lemma reachable_not_diff s : reachable s -> overlayMode s <> diff.
Proof.
  induction 1 as [h c p r | s a Hr IH He].
  - unfold mount.
    rewrite (sc_overlay _ _ (notifyEffectBody_cells _)).
    rewrite (sc_overlay _ _ (timerEffectBody_cells _)).
    rewrite (sc_overlay _ _ (agentEffectBody_cells _)).
    discriminate.
  - rewrite step_overlayMode, handle_overlayMode.
    destruct a; try assumption; try discriminate.
    destruct (ApprovalPolicy_eqb _ _); [assumption | discriminate].
Qed.

(** C9, as stated, does not hold: the open action of the diff overlay does
    not lead from [none] to [diff]; lines 480-490 append the diff to the
    transcript and set the mode to [none]. *)
Lemma open_diff_does_not_enter_diff :
  ~ (forall s now g d,
       reachable s -> overlayMode s = none ->
       enabled s (OpenDiffOverlay now g d) = true ->
       overlayMode (step s (OpenDiffOverlay now g d)) = diff).
Proof.
  intros H.
  specialize (H sampleState 0%Z true "" (reach_mount _ _ _ _) eq_refl eq_refl).
  vm_compute in H. discriminate H.
Qed.

(** C9 (amended): the mode is one of the seven values.  In a mode other
    than [none] the exit action is offered and sets the mode to [none], and
    so do the selection of a model and the selection of another approval
    policy; selecting the policy in force leaves the approval overlay open,
    and every other event leaves the mode as it is: an event either leaves
    the mode or sets it to [none].  From [none] the open actions of the
    history, model, approval, help and MCP overlays lead to their own mode,
    while the open action of the diff overlay appends the diff to the
    transcript and leaves the mode at [none], so that [diff] is never
    entered. *)
Theorem overlay_mode_transitions s a :
  reachable s -> enabled s a = true ->
  In (overlayMode s) [none; history; model; approval; help; diff; mcp]
  /\ (overlayMode s <> none ->
      overlayMode (step s a) = none
      \/ overlayMode (step s a) = overlayMode s)
  /\ (overlayMode s = none ->
      overlayMode (step s a) =
        match a with
        | OpenOverlay => history
        | OpenModelOverlay => model
        | OpenApprovalOverlay => approval
        | OpenHelpOverlay => help
        | OpenMCPOverlay _ => mcp
        | _ => none
        end)
  /\ (forall now g d, a = OpenDiffOverlay now g d ->
      overlayMode (step s a) = none
      /\ items (step s a) = items s ++ [diffItem now g d])
  /\ overlayMode (step s a) <> diff
  /\ (overlayMode s <> none ->
      enabled s OnExit = true /\ overlayMode (step s OnExit) = none)
  /\ (overlayMode s <> none ->
      match a with
      | OnExit | ModelOnSelect _ _ => overlayMode (step s a) = none
      | ApprovalOnSelect _ p =>
          overlayMode s = approval
          /\ (p <> approvalPolicy s -> overlayMode (step s a) = none)
          /\ (p = approvalPolicy s -> overlayMode (step s a) = approval)
      | _ => overlayMode (step s a) = overlayMode s
      end).
Proof.
  intros Hr He.
  split; [destruct (overlayMode s); cbn; tauto|].
  split.
  { intros Hm. rewrite step_overlayMode, handle_overlayMode.
    destruct a; try (right; reflexivity); try (left; reflexivity);
      try (cbn in He; unfold inputShown in He;
           destruct (overlayMode s); [contradiction | discriminate ..]).
    destruct (ApprovalPolicy_eqb _ _); [right | left]; reflexivity. }
  split.
  { intros Hm. rewrite step_overlayMode, handle_overlayMode.
    destruct a; try reflexivity; try exact Hm.
    cbn in He. rewrite Hm in He. discriminate He. }
  split.
  { intros now g d ->. split.
    - rewrite step_overlayMode, handle_overlayMode. reflexivity.
    - unfold step.
      rewrite (sc_items _ _ (commit_cells _ _)), handle_items. reflexivity. }
  split; [apply reachable_not_diff; apply reach_step; assumption|].
  split.
  { intros Hm. split.
    - cbn. destruct (overlayMode s); [contradiction | reflexivity ..].
    - rewrite step_overlayMode, handle_overlayMode. reflexivity. }
  intros Hm.
  destruct a; rewrite ?step_overlayMode, ?handle_overlayMode;
    try reflexivity;
    try (cbn in He; unfold inputShown in He;
         destruct (overlayMode s); [contradiction | discriminate ..]).
  cbn in He.
  assert (Ha : overlayMode s = approval)
    by (destruct (overlayMode s); try discriminate He; reflexivity).
  split; [exact Ha|].
  destruct (ApprovalPolicy_eqb newMode (approvalPolicy s)) eqn:E.
  - apply ApprovalPolicy_eqb_eq in E. split; [contradiction | intros _; exact Ha].
  - split; [reflexivity|]. intros ->.
    destruct (approvalPolicy s); discriminate E.
Qed.

Lemma overlay_mode_transitions_witness :
  overlayMode (step sampleState OpenOverlay) = history
  /\ overlayMode (step (step sampleState OpenOverlay) OnExit) = none.
Proof.
  split.
  - destruct (overlay_mode_transitions sampleState OpenOverlay
                (reach_mount _ _ _ _) eq_refl) as (_ & _ & Hopen & _).
    apply Hopen. reflexivity.
  - destruct (overlay_mode_transitions (step sampleState OpenOverlay) OnExit)
      as (_ & _ & _ & _ & _ & _ & Hexit).
    + apply reach_step; [apply reach_mount | reflexivity].
    + reflexivity.
    + apply Hexit. vm_compute. discriminate.
Defined.

(** * The thinking timer *)

Lemma thinking_true s :
  thinking s = true -> loading s = true /\ promptRefOf s = None.
Proof.
  unfold thinking, isPending, promptRefOf. intros H.
  apply andb_true_iff in H. destruct H as [H1 H2].
  destruct (confirmationPrompt s); [discriminate | auto].
Qed.

Lemma timerDeps_thinking old new :
  thinking old = true -> thinking new = true ->
  timerDepsChanged old new = false.
Proof.
  intros Ho Hn. apply thinking_true in Ho. apply thinking_true in Hn.
  unfold timerDepsChanged.
  destruct Ho as [-> ->]. destruct Hn as [-> ->]. reflexivity.
Qed.

Lemma thinking_handle_Tick s : thinking (handle Tick s) = thinking s.
Proof.
  unfold thinking, isPending.
  rewrite handle_loading, handle_confirmationPrompt. reflexivity.
Qed.

Lemma tick_step s :
  settled s -> thinking s = true ->
  thinkingSeconds (step s Tick) = S (thinkingSeconds s)
  /\ thinking (step s Tick) = true.
Proof.
  intros [_ Ht _ _] Hth. unfold step.
  rewrite commit_thinking, commit_thinkingSeconds, thinking_handle_Tick.
  rewrite timerDeps_thinking
    by (rewrite ?thinking_handle_Tick; assumption).
  rewrite handle_thinkingSeconds, Ht, Hth. auto.
Qed.

Lemma ticks_run s n :
  settled s -> thinking s = true ->
  thinkingSeconds (run s (repeat Tick n)) = thinkingSeconds s + n
  /\ thinking (run s (repeat Tick n)) = true.
Proof.
  revert s. induction n as [|n IH]; intros s Hs Hth.
  - cbn. rewrite Nat.add_0_r. auto.
  - cbn [repeat run fold_left]. fold (run (step s Tick) (repeat Tick n)).
    destruct (tick_step s Hs Hth) as [H1 H2].
    destruct (IH (step s Tick) (step_settled s Tick Hs) H2) as [H3 H4].
    rewrite H3, H1. split; [lia | exact H4].
Qed.

(** C5, as stated, does not hold: the counter is not zero at every instant
    where [loading] is false or a prompt is pending.  After three seconds of
    thinking the engine reports [loading] false; the render that follows
    shows [loading] false with the counter still at 3, and only the effect
    of lines 323-343, which runs once that render is committed, resets
    it. *)
Lemma counter_kept_until_the_effect_runs :
  ~ (forall s a, reachable s -> enabled s a = true ->
       loading (handle a s) = false \/ isPending (handle a s) = true ->
       thinkingSeconds (handle a s) = 0).
Proof.
  intros H.
  specialize (H (run (step sampleState (OnLoading true)) (repeat Tick 3))
                (OnLoading false)).
  assert (Hr : reachable
                 (run (step sampleState (OnLoading true)) (repeat Tick 3))).
  { apply reachable_run; [|reflexivity].
    apply reach_step; [apply reach_mount | reflexivity]. }
  specialize (H Hr eq_refl (or_introl eq_refl)).
  vm_compute in H. discriminate H.
Qed.

(** C5 (amended): once the effects of a render have run, the counter is zero
    whenever [loading] is false or a prompt is pending; the render that
    first shows [loading] false or a prompt still carries the counter of the
    render before it, since no handler but the interval's writes the
    counter.  The interval calls back exactly while the component is
    thinking ([loading] true and no prompt); the step that enters that state
    leaves the counter at zero; from then on each elapsed second adds
    exactly one, and no other event that stays in the state changes the
    counter. *)
Theorem thinking_counter s a :
  reachable s ->
  enabled s Tick = thinking s
  /\ (thinking s = false -> thinkingSeconds s = 0)
  /\ (thinking s = false -> thinking (step s a) = true ->
      thinkingSeconds (step s a) = 0)
  /\ (thinking s = true -> forall n,
      thinkingSeconds (run s (repeat Tick n)) = thinkingSeconds s + n
      /\ thinking (run s (repeat Tick n)) = true)
  /\ (thinking s = true -> a <> Tick -> thinking (step s a) = true ->
      thinkingSeconds (step s a) = thinkingSeconds s)
  /\ (loading s = false \/ isPending s = true -> thinkingSeconds s = 0)
  /\ (loading (step s a) = false \/ isPending (step s a) = true ->
      thinkingSeconds (step s a) = 0)
  /\ (a <> Tick -> thinkingSeconds (handle a s) = thinkingSeconds s)
  /\ (thinking s = true -> thinkingSeconds (step s Tick) =
                           S (thinkingSeconds s)).
Proof.
  intros Hr. pose proof (reachable_settled s Hr) as Hs.
  assert (Hidle : forall t, settled t ->
            loading t = false \/ isPending t = true -> thinkingSeconds t = 0).
  { intros t Ht [H|H]; apply (settled_zero t Ht); unfold thinking;
      rewrite H; [reflexivity | apply andb_false_r]. }
  destruct Hs as [Hp Ht Hz Hc].
  split; [exact Ht|]. split; [exact Hz|].
  split.
  { intros Hf Hstep. unfold step in *.
    rewrite commit_thinking in Hstep. rewrite commit_thinkingSeconds.
    destruct (timerDepsChanged s (handle a s)) eqn:E; [reflexivity|].
    apply timerDeps_same in E. destruct E as [E1 E2].
    unfold thinking in *. congruence. }
  split.
  { intros Hth n. apply ticks_run; [apply reachable_settled|]; assumption. }
  split.
  { intros Hth Hne Hstep. unfold step in *.
    rewrite commit_thinking in Hstep. rewrite commit_thinkingSeconds.
    rewrite timerDeps_thinking by assumption.
    rewrite handle_thinkingSeconds. destruct a; congruence. }
  split; [apply Hidle; apply reachable_settled; exact Hr|].
  split.
  { apply Hidle. apply step_settled. apply reachable_settled. exact Hr. }
  split.
  { intros Hne. rewrite handle_thinkingSeconds. destruct a; congruence. }
  intros Hth. apply tick_step; [apply reachable_settled|]; assumption.
Qed.

Lemma thinking_counter_witness :
  thinkingSeconds (run (step sampleState (OnLoading true)) (repeat Tick 3)) =
  3.
Proof.
  destruct (thinking_counter (step sampleState (OnLoading true)) Tick)
    as (_ & _ & _ & Hn & _).
  - apply reach_step; [apply reach_mount | reflexivity].
  - destruct (Hn eq_refl 3) as [H _]. exact H.
Defined.

(** * The notification gate *)

Lemma filter_last_split (l : list CoreMessage) : forall l' m,
  List.filter isAssistant l = l' ++ [m] ->
  exists before after,
    l = before ++ m :: after /\ isAssistant m = true
    /\ Forall (fun x => isAssistant x = false) after.
Proof.
  induction l as [|x l IH]; intros l' m H.
  - destruct l'; discriminate H.
  - cbn in H. destruct (isAssistant x) eqn:Hx.
    + destruct l' as [|y l'].
      * cbn in H. injection H as -> Hnil.
        exists [], l. repeat split; [exact Hx|].
        clear -Hnil. induction l as [|z l IHl]; [constructor|].
        cbn in Hnil. destruct (isAssistant z) eqn:Hz; [discriminate|].
        constructor; auto.
      * cbn in H. injection H as -> Hrest.
        destruct (IH _ _ Hrest) as (b & a & -> & Hm & Ha).
        exists (y :: b), a. auto.
    + destruct (IH _ _ H) as (b & a & -> & Hm & Ha).
      exists (x :: b), a. auto.
Qed.

(** The gate picks the assistant item after which no assistant item
    follows. *)
Lemma lastAssistant_spec l m :
  lastAssistant l = Some m ->
  exists before after,
    l = before ++ m :: after /\ role m = assistant
    /\ Forall (fun x => role x <> assistant) after.
Proof.
  unfold lastAssistant. intros H. apply last_Some in H.
  destruct H as [l' H].
  destruct (filter_last_split l l' m H) as (b & a & -> & Hm & Ha).
  exists b, a. repeat split.
  - unfold isAssistant in Hm. destruct (role m); congruence.
  - eapply Forall_impl; [exact Ha|]. cbn. intros x Hx.
    unfold isAssistant in Hx. destruct (role x); congruence.
Qed.

Lemma lastAssistant_nonempty l m :
  lastAssistant l = Some m -> (0 <? length l)%nat = true.
Proof.
  intros H. apply lastAssistant_spec in H.
  destruct H as (b & a & -> & _). rewrite List.length_app.
  apply Nat.ltb_lt. cbn [length]. lia.
Qed.

Lemma high_byte_range (k : N) : (128 <= 128 + k mod 64 < 192)%N.
Proof.
  assert (H : (k mod 64 < 64)%N) by (apply N.mod_upper_bound; discriminate).
  revert H. generalize (k mod 64)%N. intros m H. lia.
Qed.

Lemma unitsOfByte_low n :
  (128 <= n < 192)%N -> unitsOfByte (ascii_of_N n) = 0.
Proof.
  intros H. unfold unitsOfByte, isContinuation.
  rewrite N_ascii_embedding by lia.
  destruct (N.leb_spec 128 n); [|lia].
  destruct (N.ltb_spec n 192); [reflexivity | lia].
Qed.

(** A first unit of a surrogate pair, kept alone, is one unit. *)
Lemma jsLength_highSurrogate b rest : jsLength (highSurrogate b rest) = 1.
Proof.
  unfold highSurrogate. cbv zeta. cbn [jsLength].
  replace (unitsOfByte (ascii_of_N 237)) with 1 by reflexivity.
  rewrite !unitsOfByte_low.
  - reflexivity.
  - apply high_byte_range.
  - apply high_byte_range.
Qed.

(** The slice has [n] code units, or all of them when there are fewer. *)
Lemma jsLength_slice0 n s :
  jsLength (slice0 n s) = Nat.min n (jsLength s).
Proof.
  revert n. induction s as [|b rest IH]; intros n.
  - cbn. lia.
  - cbn [slice0 jsLength]. unfold unitsOfByte.
    destruct (isContinuation b) eqn:E.
    + cbn [jsLength]. unfold unitsOfByte. rewrite E, IH. lia.
    + destruct n as [|n1]; [reflexivity|].
      destruct (N_of_ascii b <? 240)%N eqn:E2.
      * cbn [jsLength]. unfold unitsOfByte. rewrite E, E2, IH. lia.
      * destruct n1 as [|n2].
        -- rewrite jsLength_highSurrogate. lia.
        -- cbn [jsLength]. unfold unitsOfByte. rewrite E, E2, IH. lia.
Qed.

(** A text that fits is kept whole. *)
Lemma slice0_all n s : jsLength s <= n -> slice0 n s = s.
Proof.
  revert n. induction s as [|b rest IH]; intros n H; [reflexivity|].
  cbn [slice0 jsLength] in *. unfold unitsOfByte in H.
  destruct (isContinuation b).
  - rewrite IH by lia. reflexivity.
  - destruct (N_of_ascii b <? 240)%N.
    + destruct n as [|n1]; [lia|]. rewrite IH by lia. reflexivity.
    + destruct n as [|[|n2]]; try lia. rewrite IH by lia. reflexivity.
Qed.

Lemma eqb_high_byte n c :
  (128 <= n < 256)%N -> (N_of_ascii c < 128)%N ->
  Ascii.eqb (ascii_of_N n) c = false.
Proof.
  intros Hn Hc. apply Ascii.eqb_neq. intros H.
  apply (f_equal N_of_ascii) in H. rewrite N_ascii_embedding in H; lia.
Qed.

Lemma noChar_highSurrogate c b rest :
  (N_of_ascii c < 128)%N -> noChar c (highSurrogate b rest) = true.
Proof.
  intros Hc. unfold highSurrogate. cbv zeta. cbn [noChar].
  rewrite !eqb_high_byte; try exact Hc;
    try (vm_compute; split; [discriminate|reflexivity]).
  - reflexivity.
  - match goal with |- (_ <= 128 + ?k mod 64 < _)%N =>
      pose proof (high_byte_range k) end. lia.
  - match goal with |- (_ <= 128 + ?k mod 64 < _)%N =>
      pose proof (high_byte_range k) end. lia.
Qed.

Lemma noChar_slice0 c n s :
  (N_of_ascii c < 128)%N ->
  noChar c s = true -> noChar c (slice0 n s) = true.
Proof.
  intros Hc. revert n. induction s as [|b rest IH]; intros n H;
    [reflexivity|].
  cbn [noChar] in H. apply andb_true_iff in H. destruct H as [H1 H2].
  cbn [slice0]. destruct (isContinuation b).
  - cbn [noChar]. rewrite H1. cbn. auto.
  - destruct n as [|n1]; [reflexivity|].
    destruct (N_of_ascii b <? 240)%N.
    + cbn [noChar]. rewrite H1. cbn. auto.
    + destruct n1 as [|n2].
      * apply noChar_highSurrogate. exact Hc.
      * cbn [noChar]. rewrite H1. cbn. auto.
Qed.

Lemma noChar_replaceAll_newline s :
  noChar newline (replaceAll newline " " s) = true.
Proof.
  induction s as [|a s IH]; [reflexivity|]. cbn.
  destruct (Ascii.eqb a newline) eqn:E; cbn; [exact IH|].
  rewrite E. exact IH.
Qed.

Lemma jsLength_replaceAll_newline s :
  jsLength (replaceAll newline " " s) = jsLength s.
Proof.
  induction s as [|a s IH]; [reflexivity|].
  cbn [replaceAll]. destruct (Ascii.eqb a newline) eqn:E.
  - apply Ascii.eqb_eq in E. subst a.
    change (1 + jsLength (replaceAll newline " " s) = 1 + jsLength s).
    rewrite IH. reflexivity.
  - cbn [jsLength]. rewrite IH. reflexivity.
Qed.

Lemma replaceAll_dquote_head s b rest :
  replaceAll dquote (String backslash (String dquote EmptyString)) s =
    String b rest ->
  Ascii.eqb b dquote = false.
Proof.
  destruct s as [|a s]; cbn; [discriminate|].
  destruct (Ascii.eqb a dquote) eqn:E; cbn; intros H; injection H as <- _;
    [reflexivity | exact E].
Qed.

Lemma quotesEscaped_replaceAll s :
  quotesEscaped
    (replaceAll dquote (String backslash (String dquote EmptyString)) s)
  = true.
Proof.
  induction s as [|a s IH]; [reflexivity|].
  cbn [replaceAll]. destruct (Ascii.eqb a dquote) eqn:E.
  - cbn. exact IH.
  - cbn [quotesEscaped]. rewrite E.
    destruct (Ascii.eqb a backslash); [|exact IH].
    destruct (replaceAll dquote _ s) as [|b rest] eqn:R; [reflexivity|].
    rewrite (replaceAll_dquote_head s b rest R). exact IH.
Qed.

Lemma fires_commit old new : fires old (commit old new) = fires old new.
Proof.
  unfold fires, isPending.
  rewrite (sc_config _ _ (commit_cells _ _)), (sc_loading _ _ (commit_cells _ _)),
    (sc_prompt _ _ (commit_cells _ _)), (sc_host _ _ (commit_cells _ _)),
    (sc_items _ _ (commit_cells _ _)).
  reflexivity.
Qed.

Lemma notifyEvents_fires old new :
  prevLoadingRef new = loading old ->
  notifyEvents new =
  if fires old new then
    match lastAssistant (items new) with
    | Some m => [spawnNotification new m]
    | None => []
    end
  else [].
Proof.
  intros Hp. unfold notifyEvents, fires, gateOpen. rewrite Hp.
  destruct (lastAssistant (items new)) as [m|] eqn:L.
  - rewrite (lastAssistant_nonempty _ _ L).
    destruct (notifyOpt (config new)), (loading old), (loading new),
      (isPending new), (String.eqb (platform (host new)) "darwin");
      reflexivity.
  - destruct (_ && _ && _); rewrite ?andb_false_r; reflexivity.
Qed.

Lemma fires_needs_deps old new :
  notifyDepsChanged old new = false -> fires old new = false.
Proof.
  intros H. apply notifyDeps_same in H. unfold fires. rewrite H.
  destruct (loading new); cbn; rewrite ?andb_false_r; reflexivity.
Qed.

Lemma step_notifications s a :
  settled s ->
  notifications (step s a) =
  notifications s + (if fires s (step s a) then 1 else 0).
Proof.
  intros [Hp _ _ _]. unfold step. rewrite fires_commit.
  unfold notifications, count. rewrite commit_trace.
  rewrite !filter_length_app.
  fold (count isSpawn (handle a s)). fold (notifications (handle a s)).
  rewrite handle_notifications.
  assert (H1 : length (List.filter isSpawn
                 (if agentDepsChanged s (handle a s)
                       && agentCleanup (handle a s)
                  then terminateEvents (handle a s) else [])) = 0).
  { destruct (agentDepsChanged s (handle a s) && agentCleanup (handle a s));
      [apply terminateEvents_spawn | reflexivity]. }
  assert (H2 : length (List.filter isSpawn
                 (if agentDepsChanged s (handle a s)
                       && negb (isPending (handle a s))
                  then (if agentCleanup (handle a s) then []
                        else terminateEvents (handle a s))
                         ++ [EvConstruct (newAgentLoop (handle a s))]
                  else [])) = 0).
  { destruct (agentDepsChanged s (handle a s)
                && negb (isPending (handle a s))); [|reflexivity].
    rewrite filter_length_app.
    destruct (agentCleanup (handle a s)); [reflexivity|].
    rewrite terminateEvents_spawn. reflexivity. }
  rewrite H1, H2. cbn [Nat.add]. unfold notifications, count. f_equal.
  destruct (notifyDepsChanged s (handle a s)) eqn:E.
  - rewrite (notifyEvents_fires s) by (rewrite handle_prevLoadingRef; exact Hp).
    unfold fires.
    destruct (lastAssistant (items (handle a s)));
      rewrite ?andb_false_r; [|reflexivity].
    match goal with |- context [if ?b then _ else _] => destruct b end;
      reflexivity.
  - rewrite (fires_needs_deps _ _ E). reflexivity.
Qed.

(** C6, as stated, does not hold: a fall of [loading] with no prompt and a
    non-empty transcript does not always notify.  Here notifications are on
    and the platform is darwin, but the transcript holds no assistant item,
    and line 364 skips the call. *)
Lemma gate_silent_without_assistant_item :
  ~ (forall s a, reachable s -> enabled s a = true ->
       notifications (step s a) =
       notifications s + (if busyToIdleEdge s (step s a) then 1 else 0)).
Proof.
  intros H.
  specialize (H (run sampleState [SubmitInput [hello]; OnLoading true])
                (OnLoading false)).
  assert (Hr : reachable
                 (run sampleState [SubmitInput [hello]; OnLoading true]))
    by (apply reachable_run; [apply reach_mount | reflexivity]).
  specialize (H Hr eq_refl). vm_compute in H. discriminate H.
Qed.

(** C6 (amended): on every step the gate makes one call when it fires and
    none otherwise, and it fires exactly when notifications are enabled in
    the config, [loading] goes from true to false, no prompt is pending, the
    platform is darwin and the transcript holds an assistant item; so it
    fires at most once per fall of [loading] with no prompt and a non-empty
    transcript, never from idle to idle and never under a prompt.  When it
    fires it takes the last assistant item, replaces every newline of its
    text with a space, keeps the first 100 UTF-16 code units (the whole
    text when it has no more), puts a backslash before every double quote
    and spawns the notification with the title "Codex CLI", the working
    directory as subtitle and that preview as body. *)
Theorem notification_gate s a :
  reachable s ->
  let s' := step s a in
  notifications s' = notifications s + (if fires s s' then 1 else 0)
  /\ (fires s s' = true -> busyToIdleEdge s s' = true)
  /\ (loading s = false -> fires s s' = false)
  /\ (isPending s' = true -> fires s s' = false)
  /\ (fires s s' = true ->
      exists m before after pre,
        items s' = before ++ m :: after
        /\ role m = assistant
        /\ Forall (fun x => role x <> assistant) after
        /\ trace s' =
           pre ++ [EvSpawn "osascript"
                     ["-e"; notificationScript
                              (safePreviewOf (getTextContent m))
                              "Codex CLI" (PWD (host s'))]])
  /\ (forall text,
        previewOf text = slice0 100 (replaceAll newline " " text)
        /\ jsLength (previewOf text) = Nat.min 100 (jsLength text)
        /\ (jsLength text <= 100 ->
            previewOf text = replaceAll newline " " text)
        /\ noChar newline (previewOf text) = true
        /\ quotesEscaped (safePreviewOf text) = true).
Proof.
  intros Hr s'. pose proof (reachable_settled s Hr) as Hs.
  split; [apply step_notifications; exact Hs|].
  split.
  { unfold fires, busyToIdleEdge. intros H.
    destruct (lastAssistant (items s')) as [m|] eqn:L;
      [|rewrite andb_false_r in H; discriminate H].
    rewrite (lastAssistant_nonempty _ _ L).
    destruct (notifyOpt (config s')), (loading s), (loading s'),
      (isPending s'); cbn in *; congruence. }
  split.
  { unfold fires. intros ->. rewrite andb_false_r. reflexivity. }
  split.
  { unfold fires. intros ->. cbn. rewrite !andb_false_r. reflexivity. }
  split.
  { intros Hf. subst s'. unfold step in *. rewrite fires_commit in Hf.
    destruct (notifyDepsChanged s (handle a s)) eqn:E;
      [|rewrite (fires_needs_deps _ _ E) in Hf; discriminate Hf].
    rewrite commit_trace, E.
    rewrite (notifyEvents_fires s), Hf
      by (rewrite handle_prevLoadingRef; apply (settled_prev s Hs)).
    rewrite (sc_items _ _ (commit_cells _ _)),
      (sc_host _ _ (commit_cells _ _)).
    destruct (lastAssistant (items (handle a s))) as [m|] eqn:L.
    - destruct (lastAssistant_spec _ _ L) as (b & af & Hi & Hm & Ha).
      exists m, b, af. eexists. repeat split; try assumption.
      rewrite !List.app_assoc. reflexivity.
    - unfold fires in Hf. rewrite L, andb_false_r in Hf. discriminate Hf. }
  intros text. repeat split.
  - unfold previewOf.
    rewrite jsLength_slice0, jsLength_replaceAll_newline. reflexivity.
  - intros Hl. unfold previewOf. apply slice0_all.
    rewrite jsLength_replaceAll_newline. exact Hl.
  - apply noChar_slice0; [vm_compute; reflexivity|].
    apply noChar_replaceAll_newline.
  - apply quotesEscaped_replaceAll.
Qed.

Lemma notification_gate_witness :
  notifications
    (step (run sampleState [OnLoading true; OnItem 0 answer])
       (OnLoading false)) = 1.
Proof.
  destruct (notification_gate
              (run sampleState [OnLoading true; OnItem 0 answer])
              (OnLoading false)) as [H _].
  - apply reachable_run; [apply reach_mount | reflexivity].
  - exact H.
Defined.

(** * The engine effect *)

Lemma handle_terminations a s : terminations (handle a s) = terminations s.
Proof.
  unfold terminations, count. rewrite handle_trace, filter_length_app.
  destruct a; unfold cancelEvents; try destruct (agentRef s); cbn;
    rewrite ?Nat.add_0_r; reflexivity.
Qed.

Lemma handle_constructions a s :
  constructions (handle a s) = constructions s.
Proof.
  unfold constructions, count. rewrite handle_trace, filter_length_app.
  destruct a; unfold cancelEvents; try destruct (agentRef s); cbn;
    rewrite ?Nat.add_0_r; reflexivity.
Qed.

Lemma notifyEvents_not_terminate s :
  length (List.filter isTerminate (notifyEvents s)) = 0.
Proof.
  pose proof (notifyEvents_spawn s) as H.
  induction H as [|e l He _ IH]; [reflexivity|].
  destruct e; cbn in *; try discriminate; exact IH.
Qed.

Lemma notifyEvents_not_construct s :
  length (List.filter isConstruct (notifyEvents s)) = 0.
Proof.
  pose proof (notifyEvents_spawn s) as H.
  induction H as [|e l He _ IH]; [reflexivity|].
  destruct e; cbn in *; try discriminate; exact IH.
Qed.

Lemma terminateEvents_terminate s :
  length (List.filter isTerminate (terminateEvents s)) = engines s.
Proof. unfold terminateEvents, engines; destruct (agentRef s); reflexivity. Qed.

Lemma terminateEvents_construct s :
  length (List.filter isConstruct (terminateEvents s)) = 0.
Proof. unfold terminateEvents; destruct (agentRef s); reflexivity. Qed.

Lemma handle_engines a s : engines (handle a s) = engines s.
Proof.
  unfold engines. rewrite handle_agentRef. destruct a; try reflexivity.
  destruct (ApprovalPolicy_eqb _ _), (agentRef s); reflexivity.
Qed.

(** How many engines a commit terminates. *)
Lemma commit_terminations old new :
  terminations (commit old new) =
  terminations new +
  if agentDepsChanged old new
       && (agentCleanup new || negb (isPending new))
  then engines new else 0.
Proof.
  unfold terminations, count. rewrite commit_trace, !filter_length_app.
  destruct (agentDepsChanged old new), (agentCleanup new),
    (isPending new); cbn;
    rewrite ?filter_length_app, ?terminateEvents_terminate,
      ?notifyEvents_not_terminate;
    destruct (notifyDepsChanged old new);
    rewrite ?notifyEvents_not_terminate; cbn; lia.
Qed.

(** How many engines a commit constructs. *)
Lemma commit_constructions old new :
  constructions (commit old new) =
  constructions new +
  if agentDepsChanged old new && negb (isPending new) then 1 else 0.
Proof.
  unfold constructions, count. rewrite commit_trace, !filter_length_app.
  destruct (agentDepsChanged old new), (agentCleanup new),
    (isPending new); cbn;
    rewrite ?filter_length_app, ?terminateEvents_construct,
      ?notifyEvents_not_construct;
    destruct (notifyDepsChanged old new);
    rewrite ?notifyEvents_not_construct; cbn; lia.
Qed.

Lemma commit_engines old new :
  engines (commit old new) =
  if agentDepsChanged old new then
    if isPending new
    then (if agentCleanup new then 0 else engines new)
    else 1
  else engines new.
Proof.
  unfold engines. rewrite commit_agentRef.
  destruct (agentDepsChanged old new), (isPending new), (agentCleanup new);
    reflexivity.
Qed.

Lemma mount_trace h c p r :
  trace (mount h c p r) =
  [EvConstruct (newAgentLoop (initialState h c p r))].
Proof.
  unfold mount, initialState. rewrite ?agentEffectBody_eq; cbn.
  rewrite ?timerEffectBody_eq; cbn. rewrite ?notifyEffectBody_eq; cbn.
  rewrite notifyEvents_no_edge by reflexivity. reflexivity.
Qed.

Lemma mount_agentRef h c p r :
  agentRef (mount h c p r) = Some (newAgentLoop (initialState h c p r)).
Proof.
  unfold mount, initialState. rewrite ?agentEffectBody_eq; cbn.
  rewrite ?timerEffectBody_eq; cbn. rewrite ?notifyEffectBody_eq; cbn.
  reflexivity.
Qed.

(** Every engine but the one in the cell has been terminated, once. *)
Lemma teardown_count s :
  reachable s -> constructions s = terminations s + engines s.
Proof.
  induction 1 as [h c p r | s a Hr IH He].
  - unfold constructions, terminations, count, engines.
    rewrite mount_trace, mount_agentRef. reflexivity.
  - pose proof (reachable_settled s Hr) as [_ _ _ Hc].
    unfold step.
    rewrite commit_constructions, commit_terminations, commit_engines.
    rewrite handle_constructions, handle_terminations, handle_agentCleanup,
      handle_engines.
    assert (Hk : agentCleanup s = false -> engines s = 0).
    { unfold engines. destruct (agentRef s); [|reflexivity].
      intros Hf. rewrite Hc in Hf; discriminate. }
    destruct (agentDepsChanged s (handle a s)),
      (isPending (handle a s)), (agentCleanup s); cbn;
      try specialize (Hk eq_refl); lia.
Qed.

(** Unmounting terminates the engine that is left: every engine ever
    constructed has then been terminated. *)
Lemma unmount_terminates_all s :
  reachable s ->
  agentRef (unmount s) = None
  /\ terminations (unmount s) = constructions (unmount s).
Proof.
  intros Hr. pose proof (teardown_count s Hr) as Hn.
  pose proof (reachable_settled s Hr) as [_ _ _ Hc].
  unfold terminations, constructions, count, engines in *.
  unfold unmount. rewrite timerEffectCleanup_eq. cbn [agentRef trace].
  destruct (agentCleanup s) eqn:Ec.
  - rewrite agentEffectCleanup_eq. cbn [agentRef trace].
    split; [reflexivity|].
    rewrite !filter_length_app, terminateEvents_terminate,
      terminateEvents_construct. unfold engines. lia.
  - destruct (agentRef s) eqn:Er.
    + assert (Ht : false = true) by (apply Hc; discriminate).
      discriminate Ht.
    + split; [reflexivity | lia].
Qed.

(** Only a model selection or new props change the identity. *)
Lemma identity_change_action s a :
  agentDepsChanged s (handle a s) = true ->
  agentRef (handle a s) = agentRef s
  /\ confirmationPrompt (handle a s) = confirmationPrompt s.
Proof.
  rewrite agentDeps_handle, handle_agentRef, handle_confirmationPrompt.
  destruct a; try discriminate; auto.
Qed.

(** With no prompt pending, a change of identity terminates the engine in
    the cell and then constructs one from the new model, config and roots. *)
Lemma identity_change_recreates s a e :
  reachable s -> agentRef s = Some e -> confirmationPrompt s = None ->
  agentDepsChanged s (handle a s) = true ->
  let s1 := step s a in
  let fresh := newAgentLoop (handle a s) in
  (exists post,
     trace s1 =
     trace (handle a s) ++
       [EvTerminate (engineId e); EvConstruct fresh] ++ post)
  /\ agentRef s1 = Some fresh
  /\ sameIdentity fresh s1.
Proof.
  intros Hr He Hp Hd s1 fresh. subst s1 fresh.
  pose proof (reachable_settled s Hr) as [_ _ _ Hc].
  destruct (identity_change_action s a Hd) as [Ha Hq].
  assert (Hcl : agentCleanup (handle a s) = true).
  { rewrite handle_agentCleanup. apply Hc. congruence. }
  assert (Hpen : isPending (handle a s) = false).
  { unfold isPending. rewrite Hq, Hp. reflexivity. }
  unfold step. repeat split.
  - rewrite commit_trace, Hd, Hcl, Hpen. cbn.
    unfold terminateEvents. rewrite Ha, He. cbn.
    eexists. reflexivity.
  - rewrite commit_agentRef, Hd, Hpen. reflexivity.
  - rewrite (sc_model _ _ (commit_cells _ _)). reflexivity.
  - rewrite (sc_config _ _ (commit_cells _ _)). reflexivity.
  - rewrite (sc_roots _ _ (commit_cells _ _)). reflexivity.
Qed.

(** C1 on the code: when the identity changes while a prompt is pending,
    the cleanup of the previous run of the effect (lines 309-314) still
    runs: the engine in the cell is terminated and the cell is emptied,
    while the body returns at line 237 without constructing anything.
    Clearing the prompt afterwards does not run the effect, so the cell
    stays empty. *)
Theorem identity_change_under_prompt s a e p :
  reachable s -> agentRef s = Some e -> confirmationPrompt s = Some p ->
  agentDepsChanged s (handle a s) = true ->
  let s1 := step s a in
  let s2 := step s1 PromptCleared in
  (exists pre post, trace s1 = pre ++ EvTerminate (engineId e) :: post)
  /\ terminations s1 = S (terminations s)
  /\ constructions s1 = constructions s
  /\ agentRef s1 = None
  /\ confirmationPrompt s1 = Some p
  /\ agentRef s2 = None
  /\ constructions s2 = constructions s.
Proof.
  intros Hr He Hp Hd s1 s2. subst s2 s1.
  pose proof (reachable_settled s Hr) as [_ _ _ Hc].
  destruct (identity_change_action s a Hd) as [Ha Hq].
  assert (Hcl : agentCleanup (handle a s) = true).
  { rewrite handle_agentCleanup. apply Hc. congruence. }
  assert (Hpen : isPending (handle a s) = true).
  { unfold isPending. rewrite Hq, Hp. reflexivity. }
  assert (Hstay : agentDepsChanged (step s a)
                    (handle PromptCleared (step s a)) = false)
    by (rewrite agentDeps_handle; reflexivity).
  assert (Hnone : agentRef (step s a) = None).
  { unfold step. rewrite commit_agentRef, Hd, Hpen, Hcl. reflexivity. }
  assert (Hcons : constructions (step s a) = constructions s).
  { unfold step. rewrite commit_constructions, Hd, Hpen.
    rewrite handle_constructions. cbn. lia. }
  repeat split.
  - unfold step. rewrite commit_trace, Hd, Hcl, Hpen. cbn.
    unfold terminateEvents. rewrite Ha, He. cbn.
    eexists. eexists. reflexivity.
  - unfold step. rewrite commit_terminations, Hd, Hcl. cbn.
    rewrite handle_terminations, handle_engines. unfold engines.
    rewrite He. lia.
  - exact Hcons.
  - exact Hnone.
  - unfold step. rewrite (sc_prompt _ _ (commit_cells _ _)), Hq. exact Hp.
  - unfold step at 1. rewrite commit_agentRef, Hstay, handle_agentRef.
    exact Hnone.
  - unfold step at 1. rewrite commit_constructions, Hstay.
    rewrite handle_constructions. cbn. lia.
Qed.

Lemma identity_change_under_prompt_witness :
  agentRef (step askedUnderModelOverlay (ModelOnSelect 5 "B")) = None
  /\ agentRef (run askedUnderModelOverlay
                 [ModelOnSelect 5 "B"; PromptCleared]) = None.
Proof.
  destruct (identity_change_under_prompt askedUnderModelOverlay
              (ModelOnSelect 5 "B")
              (newAgentLoop (initialState sampleHost sampleConfig suggest
                               sampleRoots))
              samplePrompt)
    as (_ & _ & _ & H1 & _ & H2 & _).
  - apply reachable_run; [apply reach_mount | vm_compute; reflexivity].
  - vm_compute; reflexivity.
  - vm_compute; reflexivity.
  - vm_compute; reflexivity.
  - split; [exact H1 | exact H2].
Defined.

(** * The explanation service *)

Lemma generateCommandExplanation_eq fmt gen cmd m :
  generateCommandExplanation fmt gen cmd m =
  match gen (explainRequest fmt cmd m) with
  | inr text => inr (if String.eqb text "" then msgEmpty else text)
  | inl e =>
      match printOf e with
      | Prints _ => inr (explanationFallback e)
      | PrintThrows fault => inl fault
      end
  end.
Proof.
  unfold generateCommandExplanation, tryCatch.
  destruct (gen _); reflexivity.
Qed.

(** C4, as stated, does not hold, on two counts.  The operation does not
    always resolve: the catch block prints the fault for the log (line 102),
    and for a thrown Symbol that conversion throws, so the operation
    rejects.  And a failure that carries the numeric status 401 does not
    always yield the API-key message: the status is only looked at when the
    thrown value is an instance of [Error] (line 105); a plain object with
    [status: 401] gets the fixed text of line 104. *)
Lemma explanation_rejects_or_ignores_status :
  ~ (forall fmt gen cmd m,
       exists text, generateCommandExplanation fmt gen cmd m = inr text)
  /\ ~ (forall fmt gen cmd m e,
          gen (explainRequest fmt cmd m) = inl e ->
          statusOf e = NumberStatus 401 ->
          generateCommandExplanation fmt gen cmd m =
          inr "Unable to generate explanation: API key is invalid or expired.").
Proof.
  split.
  - intros H.
    destruct (H sampleFmt generateTextSymbol ["rm"; "-rf"; "build"] "A")
      as [text Ht].
    vm_compute in Ht. discriminate Ht.
  - intros H.
    specialize (H sampleFmt generateTextPlain401 ["rm"; "-rf"; "build"] "A"
                  (NotAnError (NumberStatus 401) (Prints "[object Object]"))
                  eq_refl eq_refl).
    vm_compute in H. discriminate H.
Qed.

(** C4 (amended): when text generation answers, the operation resolves to
    the answer, or to a fixed text when the answer is empty.  When text
    generation throws, the catch block first prints the fault for the log:
    if that conversion throws (a Symbol, an object without [toString]), the
    operation rejects with what the conversion threw; otherwise it resolves.
    It then resolves, for an instance of [Error] with a numeric status, to
    the invalid-or-expired-key message for 401, the rate-limit message for
    429 and the service-unavailable message for 500 or more; for an instance
    of [Error] with another status, a status that is not a number or no
    status, to "Unable to generate explanation: " followed by the message
    of the error; and for a value that is not an instance of [Error], to
    "Unable to generate explanation due to an error.", whatever status it
    carries. *)
Theorem explanation_outcomes fmt gen cmd m :
  (forall text, gen (explainRequest fmt cmd m) = inr text ->
   generateCommandExplanation fmt gen cmd m =
   inr (if String.eqb text "" then "Unable to generate explanation."
        else text))
  /\ (forall e fault,
      gen (explainRequest fmt cmd m) = inl e ->
      printOf e = PrintThrows fault ->
      generateCommandExplanation fmt gen cmd m = inl fault)
  /\ (forall e logged,
      gen (explainRequest fmt cmd m) = inl e ->
      printOf e = Prints logged ->
      exists text,
        generateCommandExplanation fmt gen cmd m = inr text
        /\ match e with
           | ErrorInstance msg (NumberStatus n) _ =>
               (n = 401%Z ->
                text =
                "Unable to generate explanation: API key is invalid or expired.")
               /\ (n = 429%Z ->
                   text =
                   "Unable to generate explanation: Rate limit exceeded. Please try again later.")
               /\ ((500 <= n)%Z ->
                   text =
                   "Unable to generate explanation: Service is currently unavailable. Please try again later.")
               /\ (n <> 401%Z -> n <> 429%Z -> (n < 500)%Z ->
                   text = "Unable to generate explanation: " +:+ msg)
           | ErrorInstance msg _ _ =>
               text = "Unable to generate explanation: " +:+ msg
           | NotAnError _ _ =>
               text = "Unable to generate explanation due to an error."
           end)
  /\ ((forall e, gen (explainRequest fmt cmd m) = inl e ->
                 printable e = true) ->
      exists text, generateCommandExplanation fmt gen cmd m = inr text).
Proof.
  rewrite generateCommandExplanation_eq.
  split; [intros text ->; reflexivity|].
  split; [intros e fault -> ->; reflexivity|].
  split.
  { intros e logged -> Hp. rewrite Hp. eexists. split; [reflexivity|].
    destruct e as [msg [|n|] pr|st pr]; cbn [explanationFallback];
      try reflexivity.
    repeat split.
    - intros ->. reflexivity.
    - intros ->. reflexivity.
    - intros Hn.
      destruct (Z.eqb_spec n 401); [lia|].
      destruct (Z.eqb_spec n 429); [lia|].
      destruct (Z.leb_spec 500 n); [reflexivity | lia].
    - intros H1 H2 H3.
      destruct (Z.eqb_spec n 401); [contradiction|].
      destruct (Z.eqb_spec n 429); [contradiction|].
      destruct (Z.leb_spec 500 n); [lia | reflexivity]. }
  intros Hall. destruct (gen (explainRequest fmt cmd m)) as [e|text].
  - specialize (Hall e eq_refl). unfold printable in Hall.
    destruct (printOf e); [eexists; reflexivity | discriminate Hall].
  - eexists. reflexivity.
Qed.

Lemma explanation_outcomes_witness :
  exists text,
    generateCommandExplanation sampleFmt generateTextError503
      ["rm"; "-rf"; "build"] "A" = inr text
    /\ text =
       "Unable to generate explanation: Service is currently unavailable. Please try again later.".
Proof.
  destruct (explanation_outcomes sampleFmt generateTextError503
              ["rm"; "-rf"; "build"] "A") as (_ & _ & H & _).
  destruct (H (ErrorInstance "upstream" (NumberStatus 503)
                 (Prints "Error: upstream"))
              "Error: upstream" eq_refl eq_refl)
    as (text & Ht & _ & _ & H500 & _).
  exists text. split; [exact Ht | apply H500; lia].
Defined.

(** * The confirmation bridge *)

Lemma bridge_direct fmt gen m cmd patch_ first rest :
  decision first <> EXPLAIN ->
  bridge fmt gen m cmd patch_ (first :: rest) =
  (Fulfilled (mkConfirmation (decision first) (customDenyMessage first)
                patch_ None),
   [Asked (fmt cmd) None]).
Proof.
  intros H. unfold bridge, getCommandConfirmation. cbn [runAsync].
  destruct (decision first); try reflexivity. contradiction.
Qed.

Lemma bridge_explained fmt gen m cmd patch_ first second rest text :
  decision first = EXPLAIN ->
  generateCommandExplanation fmt gen cmd m = inr text ->
  bridge fmt gen m cmd patch_ (first :: second :: rest) =
  (Fulfilled (mkConfirmation (decision second) (customDenyMessage second)
                patch_ (Some text)),
   [Asked (fmt cmd) None; Explained cmd m; Asked (fmt cmd) (Some text)]).
Proof.
  intros H Ht. unfold bridge, getCommandConfirmation. cbn [runAsync].
  rewrite H. cbn [isExplain runAsync]. rewrite Ht. reflexivity.
Qed.

Lemma bridge_unanswered fmt gen m cmd patch_ first text :
  decision first = EXPLAIN ->
  generateCommandExplanation fmt gen cmd m = inr text ->
  bridge fmt gen m cmd patch_ [first] =
  (Pending,
   [Asked (fmt cmd) None; Explained cmd m; Asked (fmt cmd) (Some text)]).
Proof.
  intros H Ht. unfold bridge, getCommandConfirmation. cbn [runAsync].
  rewrite H. cbn [isExplain runAsync]. rewrite Ht. reflexivity.
Qed.

Lemma bridge_explanation_rejected fmt gen m cmd patch_ first rest fault :
  decision first = EXPLAIN ->
  generateCommandExplanation fmt gen cmd m = inl fault ->
  bridge fmt gen m cmd patch_ (first :: rest) =
  (Rejected fault, [Asked (fmt cmd) None; Explained cmd m]).
Proof.
  intros H Ht. unfold bridge, getCommandConfirmation. cbn [runAsync].
  rewrite H. cbn [isExplain runAsync]. rewrite Ht. reflexivity.
Qed.

Lemma isExplain_spec d : isExplain d = true <-> d = EXPLAIN.
Proof. destruct d; cbn; split; congruence. Qed.

(** C2, as stated, does not hold, on two counts.  Request-explanation can
    be returned to the engine: the second answer is returned as it is
    (lines 293-297), also when the user asks for an explanation again.  And
    a first answer of request-explanation does not always lead to a second
    confirmation and a result: when the explanation call rejects (text
    generation threw a Symbol, which line 102 cannot print), the bridge
    rejects without asking again. *)
Lemma bridge_returns_explain_or_rejects :
  ~ (forall fmt gen m cmd patch_ answers c evs,
       bridge fmt gen m cmd patch_ answers = (Fulfilled c, evs) ->
       review c <> EXPLAIN)
  /\ ~ (forall fmt gen m cmd patch_ first second rest,
          decision first = EXPLAIN ->
          exists c evs,
            bridge fmt gen m cmd patch_ (first :: second :: rest) =
            (Fulfilled c, evs)).
Proof.
  split.
  - intros H.
    apply (H sampleFmt generateTextOk "A" ["rm"; "-rf"; "build"] samplePatch
             [askExplain; askExplain]
             (mkConfirmation EXPLAIN None samplePatch
                (Some "Removes the build directory."))
             [Asked "rm -rf build" None;
              Explained ["rm"; "-rf"; "build"] "A";
              Asked "rm -rf build" (Some "Removes the build directory.")]);
      reflexivity.
  - intros H.
    destruct (H sampleFmt generateTextSymbol "A" ["rm"; "-rf"; "build"]
                samplePatch askExplain denyNotSafe [] eq_refl)
      as (c & evs & Hb).
    vm_compute in Hb. discriminate Hb.
Qed.

(** C2 (amended): when the first decision is request-explanation, the bridge
    makes exactly one explanation call.  If that call resolves, the bridge
    asks a second time with the explanation attached and returns the second
    decision, whatever it is, with its custom deny message, the original
    patch payload and the explanation text; so request-explanation reaches
    the engine only as the decision of the second round.  If that call
    rejects, the bridge rejects with the same fault and does not ask again.
    Any other first decision is returned at once with its deny message and
    the original patch payload, without an explanation call and without
    explanation text. *)
Theorem bridge_round_trip fmt gen m cmd patch_ first rest :
  (decision first <> EXPLAIN ->
   bridge fmt gen m cmd patch_ (first :: rest) =
   (Fulfilled (mkConfirmation (decision first) (customDenyMessage first)
                 patch_ None),
    [Asked (fmt cmd) None]))
  /\ (decision first = EXPLAIN ->
      forall text,
        generateCommandExplanation fmt gen cmd m = inr text ->
        forall second rest',
          rest = second :: rest' ->
          bridge fmt gen m cmd patch_ (first :: rest) =
          (Fulfilled (mkConfirmation (decision second)
                        (customDenyMessage second) patch_ (Some text)),
           [Asked (fmt cmd) None; Explained cmd m;
            Asked (fmt cmd) (Some text)]))
  /\ (decision first = EXPLAIN ->
      forall fault,
        generateCommandExplanation fmt gen cmd m = inl fault ->
        bridge fmt gen m cmd patch_ (first :: rest) =
        (Rejected fault, [Asked (fmt cmd) None; Explained cmd m]))
  /\ explanationCalls (snd (bridge fmt gen m cmd patch_ (first :: rest))) =
     (if isExplain (decision first) then 1 else 0)
  /\ (forall c evs,
        bridge fmt gen m cmd patch_ (first :: rest) = (Fulfilled c, evs) ->
        applyPatch c = patch_
        /\ (review c = EXPLAIN ->
            decision first = EXPLAIN
            /\ exists second rest',
                 rest = second :: rest' /\ decision second = EXPLAIN)).
Proof.
  split; [apply bridge_direct|].
  split.
  { intros Hd text Ht second rest' ->. apply bridge_explained; assumption. }
  split.
  { intros Hd fault Ht. apply bridge_explanation_rejected; assumption. }
  destruct (isExplain (decision first)) eqn:He.
  - apply isExplain_spec in He.
    destruct (generateCommandExplanation fmt gen cmd m) as [fault|text] eqn:Ht.
    + rewrite (bridge_explanation_rejected _ _ _ _ _ _ rest fault He Ht).
      split; [reflexivity|]. intros c evs H. discriminate H.
    + destruct rest as [|second rest'].
      * rewrite (bridge_unanswered _ _ _ _ _ _ text He Ht).
        split; [reflexivity|]. intros c evs H. discriminate H.
      * rewrite (bridge_explained _ _ _ _ _ _ _ _ text He Ht).
        split; [reflexivity|]. intros c evs H. injection H as <- <-.
        split; [reflexivity|]. cbn. intros H2.
        split; [exact He|]. exists second, rest'. auto.
  - assert (Hne : decision first <> EXPLAIN).
    { intros H. apply isExplain_spec in H. congruence. }
    rewrite (bridge_direct _ _ _ _ _ _ _ Hne).
    split; [reflexivity|]. intros c evs H. injection H as <- <-.
    split; [reflexivity|]. cbn. intros H2. contradiction.
Qed.

Lemma bridge_round_trip_witness :
  bridge sampleFmt generateTextOk "A" ["rm"; "-rf"; "build"] samplePatch
    [askExplain; denyNotSafe] =
  (Fulfilled (mkConfirmation DENY_WITH_MESSAGE (Some "not safe") samplePatch
                (Some "Removes the build directory.")),
   [Asked (sampleFmt ["rm"; "-rf"; "build"]) None;
    Explained ["rm"; "-rf"; "build"] "A";
    Asked (sampleFmt ["rm"; "-rf"; "build"])
      (Some "Removes the build directory.")]).
Proof.
  destruct (bridge_round_trip sampleFmt generateTextOk "A"
              ["rm"; "-rf"; "build"] samplePatch askExplain [denyNotSafe])
    as (_ & H & _).
  apply (H eq_refl "Removes the build directory." eq_refl denyNotSafe []
           eq_refl).
Defined.

(** * Further properties of the controller *)

(** ** The engine in the cell *)

Lemma agentDeps_false old new :
  agentDepsChanged old new = false ->
  curModel old = curModel new
  /\ configRef (config old) = configRef (config new)
  /\ rootsRef (additionalWritableRoots old) =
     rootsRef (additionalWritableRoots new).
Proof.
  unfold agentDepsChanged. intros H. apply negb_false_iff in H.
  apply andb_true_iff in H. destruct H as [H H3].
  apply andb_true_iff in H. destruct H as [H1 H2].
  apply String.eqb_eq in H1. apply Nat.eqb_eq in H2. apply Nat.eqb_eq in H3.
  auto.
Qed.

Lemma mount_cells h c p r :
  sameCells (initialState h c p r) (mount h c p r).
Proof.
  unfold mount.
  eapply sameCells_trans; [|apply notifyEffectBody_cells].
  eapply sameCells_trans; [|apply timerEffectBody_cells].
  apply agentEffectBody_cells.
Qed.

(** X1: in every state the component can be in, the engine in the cell was
    built for the current model, config object and writable roots, and its
    policy field equals the policy cell: recreation keeps the first three in
    step, the in-place write of line 579 the fourth. *)
Theorem live_engine_is_current s : reachable s -> engineCurrent s.
Proof.
  induction 1 as [h c p r | s a Hr IH He].
  - unfold engineCurrent. rewrite mount_agentRef.
    rewrite (sc_model _ _ (mount_cells h c p r)),
      (sc_config _ _ (mount_cells h c p r)),
      (sc_roots _ _ (mount_cells h c p r)),
      (sc_policy _ _ (mount_cells h c p r)).
    repeat split.
  - pose proof (reachable_settled s Hr) as [_ _ _ Hc].
    unfold engineCurrent in *. unfold step. rewrite commit_agentRef.
    rewrite (sc_model _ _ (commit_cells _ _)),
      (sc_config _ _ (commit_cells _ _)),
      (sc_roots _ _ (commit_cells _ _)),
      (sc_policy _ _ (commit_cells _ _)).
    destruct (agentDepsChanged s (handle a s)) eqn:Ed.
    + destruct (isPending (handle a s)); [|repeat split].
      destruct (agentCleanup (handle a s)) eqn:Ec; [exact I|].
      rewrite handle_agentCleanup in Ec.
      assert (Hn : agentRef s = None).
      { destruct (agentRef s); [|reflexivity].
        rewrite Hc in Ec by discriminate. discriminate Ec. }
      apply (handle_agentRef_None a s) in Hn. rewrite Hn. exact I.
    + apply agentDeps_false in Ed. destruct Ed as (E1 & E2 & E3).
      rewrite <- E1, <- E2, <- E3.
      rewrite handle_agentRef, handle_approvalPolicy.
      destruct a; try exact IH.
      destruct (ApprovalPolicy_eqb newMode (approvalPolicy s)) eqn:Eq.
      * apply ApprovalPolicy_eqb_eq in Eq. subst newMode. exact IH.
      * destruct (agentRef s) as [e|]; [|exact I].
        cbn. destruct IH as (I1 & I2 & I3 & _). auto.
Qed.

Lemma live_engine_is_current_witness :
  engineCurrent
    (run sampleState [OpenApprovalOverlay; ApprovalOnSelect 3 full_auto]).
Proof.
  apply live_engine_is_current.
  apply reachable_run; [apply reach_mount | reflexivity].
Defined.

(** X2: with no prompt pending, a change of model, config object or
    writable roots terminates the engine in the cell exactly once and then
    constructs exactly one engine, in that order, with nothing but a
    notification after them; the new engine carries the new model, the
    config and roots of the render and the current policy. *)
Theorem identity_change_terminates_then_constructs s a e :
  reachable s -> agentRef s = Some e -> confirmationPrompt s = None ->
  agentDepsChanged s (handle a s) = true ->
  let s1 := step s a in
  let fresh := newAgentLoop (handle a s) in
  terminations s1 = S (terminations s)
  /\ constructions s1 = S (constructions s)
  /\ (exists post,
        trace s1 =
        trace (handle a s) ++
          [EvTerminate (engineId e); EvConstruct fresh] ++ post
        /\ Forall (fun ev => isSpawn ev = true) post)
  /\ agentRef s1 = Some fresh
  /\ engModel fresh = curModel s1
  /\ engConfig fresh = config s1
  /\ engRoots fresh = additionalWritableRoots s1
  /\ engPolicy fresh = approvalPolicy s1.
Proof.
  intros Hr He Hp Hd s1 fresh. subst s1 fresh.
  pose proof (reachable_settled s Hr) as [_ _ _ Hc].
  destruct (identity_change_action s a Hd) as [Ha Hq].
  assert (Hcl : agentCleanup (handle a s) = true).
  { rewrite handle_agentCleanup. apply Hc. congruence. }
  assert (Hpen : isPending (handle a s) = false).
  { unfold isPending. rewrite Hq, Hp. reflexivity. }
  unfold step.
  split.
  { rewrite commit_terminations, Hd, Hcl. cbn.
    rewrite handle_terminations, handle_engines. unfold engines.
    rewrite He. lia. }
  split.
  { rewrite commit_constructions, Hd, Hpen, handle_constructions. cbn.
    lia. }
  split.
  { rewrite commit_trace, Hd, Hcl, Hpen. cbn.
    unfold terminateEvents. rewrite Ha, He. cbn.
    eexists. split; [reflexivity|].
    destruct (notifyDepsChanged _ _); [apply notifyEvents_spawn|constructor]. }
  split; [rewrite commit_agentRef, Hd, Hpen; reflexivity|].
  rewrite (sc_model _ _ (commit_cells _ _)),
    (sc_config _ _ (commit_cells _ _)),
    (sc_roots _ _ (commit_cells _ _)),
    (sc_policy _ _ (commit_cells _ _)).
  repeat split.
Qed.

Lemma identity_change_terminates_then_constructs_witness :
  terminations
    (step (step sampleState OpenModelOverlay) (ModelOnSelect 5 "B")) =
  S (terminations (step sampleState OpenModelOverlay)).
Proof.
  destruct (identity_change_terminates_then_constructs
              (step sampleState OpenModelOverlay) (ModelOnSelect 5 "B")
              (newAgentLoop (initialState sampleHost sampleConfig suggest
                               sampleRoots)))
    as [H _].
  - apply reach_step; [apply reach_mount | reflexivity].
  - reflexivity.
  - reflexivity.
  - reflexivity.
  - exact H.
Defined.

(** X3: at every moment each engine ever constructed has been terminated
    exactly once, except the one in the cell; the cell holds at most one. *)
Theorem engines_balance s :
  reachable s ->
  constructions s = terminations s + engines s /\ engines s <= 1.
Proof.
  intros Hr. split; [apply teardown_count; exact Hr|].
  unfold engines. destruct (agentRef s); lia.
Qed.

Lemma engines_balance_witness :
  constructions (step sampleState OpenModelOverlay) =
  terminations (step sampleState OpenModelOverlay)
  + engines (step sampleState OpenModelOverlay).
Proof.
  apply engines_balance.
  apply reach_step; [apply reach_mount | reflexivity].
Defined.

(** X4: unmounting leaves no engine in the cell, no engine constructed and
    not terminated, and no live interval. *)
Theorem unmount_releases_everything s :
  reachable s ->
  agentRef (unmount s) = None
  /\ terminations (unmount s) = constructions (unmount s)
  /\ timerHandle (unmount s) = false.
Proof.
  intros Hr. destruct (unmount_terminates_all s Hr) as [H1 H2].
  split; [exact H1|]. split; [exact H2|].
  unfold unmount. rewrite timerEffectCleanup_eq. reflexivity.
Qed.

Lemma unmount_releases_everything_witness :
  agentRef (unmount (step sampleState (OnLoading true))) = None.
Proof.
  apply unmount_releases_everything.
  apply reach_step; [apply reach_mount | reflexivity].
Defined.

(** ** Compaction *)

(** X5: a compaction drives the thinking timer like engine work does.
    Started with no prompt pending it makes the interval live, from zero
    when the component was idle, and leaves the transcript alone.  When the
    summary call settles with a summary, or with a fault that can be
    printed, [loading] is false, the interval is cleared and the counter is
    zero; the summary becomes the only item of the transcript, and for such
    a fault the transcript is kept and one system item is appended whose
    text is "Failed to compact context: " followed by the printed fault.
    For a fault that cannot be printed the updater of lines 163-170 throws
    when it is applied, and nothing is appended. *)
Theorem compaction_runs_and_stops_the_timer s now r :
  reachable s ->
  let s1 := step s OnCompact in
  let s2 := step s (CompactSettled now r) in
  (confirmationPrompt s = None ->
   timerHandle s1 = true /\ (loading s = false -> thinkingSeconds s1 = 0))
  /\ items s1 = items s
  /\ match r with
     | inl summary =>
         loading s2 = false /\ timerHandle s2 = false
         /\ thinkingSeconds s2 = 0
         /\ items s2 = [mkMessage None None assistant summary]
     | inr err =>
         match printOf err with
         | Prints text =>
             loading s2 = false /\ timerHandle s2 = false
             /\ thinkingSeconds s2 = 0
             /\ items s2 =
                items s ++
                  [mkMessage (Some ("compact-error-" +:+ decimal now)) None
                     system ("Failed to compact context: " +:+ text)]
         | PrintThrows _ => items s2 = items s
         end
     end.
Proof.
  intros Hr s1 s2. pose proof (reachable_settled s Hr) as Hs.
  assert (Hidle : forall t, settled t -> loading t = false ->
                  timerHandle t = false /\ thinkingSeconds t = 0).
  { intros t [_ Ht Hz _] Hl.
    assert (Hth : thinking t = false) by (unfold thinking; rewrite Hl; auto).
    rewrite Ht. auto. }
  split.
  { intros Hp. subst s1.
    pose proof (step_settled s OnCompact Hs) as [_ Ht _ _].
    split.
    - rewrite Ht. unfold step. rewrite commit_thinking.
      unfold thinking, isPending.
      rewrite handle_loading, handle_confirmationPrompt, Hp. reflexivity.
    - intros Hl. unfold step. rewrite commit_thinkingSeconds.
      unfold timerDepsChanged. rewrite handle_loading, Hl. reflexivity. }
  split.
  { subst s1. unfold step.
    rewrite (sc_items _ _ (commit_cells _ _)), handle_items. reflexivity. }
  assert (Hl2 : forall r0,
            loading (handle (CompactSettled now r0) s) = false ->
            loading (step s (CompactSettled now r0)) = false
            /\ timerHandle (step s (CompactSettled now r0)) = false
            /\ thinkingSeconds (step s (CompactSettled now r0)) = 0).
  { intros r0 Hl.
    assert (Hl' : loading (step s (CompactSettled now r0)) = false).
    { unfold step. rewrite (sc_loading _ _ (commit_cells _ _)). exact Hl. }
    split; [exact Hl'|].
    apply Hidle; [apply step_settled; exact Hs | exact Hl']. }
  subst s2. destruct r as [summary|err].
  - destruct (Hl2 (inl summary)) as (H1 & H2 & H3).
    { rewrite handle_loading. reflexivity. }
    repeat split; try assumption.
    unfold step.
    rewrite (sc_items _ _ (commit_cells _ _)), handle_items. reflexivity.
  - destruct (printOf err) as [text|fault] eqn:Hp.
    + destruct (Hl2 (inr err)) as (H1 & H2 & H3).
      { rewrite handle_loading, Hp. reflexivity. }
      repeat split; try assumption.
      unfold step.
      rewrite (sc_items _ _ (commit_cells _ _)), handle_items, Hp.
      reflexivity.
    + unfold step.
      rewrite (sc_items _ _ (commit_cells _ _)), handle_items, Hp.
      reflexivity.
Qed.

Lemma compaction_runs_and_stops_the_timer_witness :
  timerHandle (step sampleState OnCompact) = true.
Proof.
  destruct (compaction_runs_and_stops_the_timer sampleState 0 (inl "s")
              (reach_mount _ _ _ _)) as [H _].
  apply H. reflexivity.
Defined.

Lemma lastAssistant_summary summary :
  lastAssistant [summaryItem summary] = Some (summaryItem summary).
Proof. reflexivity. Qed.

(** X6: when a compaction succeeds while [loading] is true, no prompt is
    pending, notifications are enabled and the platform is darwin, the fall
    of [loading] opens the gate on the new one-item transcript: exactly one
    notification is spawned, and its body is the preview of the summary. *)
Theorem compaction_notifies_with_summary s now summary :
  reachable s -> loading s = true -> confirmationPrompt s = None ->
  notifyOpt (config s) = true -> platform (host s) = "darwin" ->
  let s' := step s (CompactSettled now (inl summary)) in
  notifications s' = S (notifications s)
  /\ exists pre,
       trace s' =
       pre ++ [EvSpawn "osascript"
                 ["-e"; notificationScript (safePreviewOf summary)
                          "Codex CLI" (PWD (host s))]].
Proof.
  intros Hr Hl Hp Hn Hd s'. subst s'.
  pose proof (reachable_settled s Hr) as Hs.
  assert (Hf : fires s (handle (CompactSettled now (inl summary)) s) = true).
  { unfold fires, isPending.
    rewrite handle_config, handle_loading, handle_confirmationPrompt,
      handle_host, handle_items, Hl, Hp, Hn, Hd, lastAssistant_summary.
    reflexivity. }
  split.
  - rewrite (step_notifications s _ Hs). unfold step.
    rewrite fires_commit, Hf. lia.
  - unfold step. rewrite commit_trace.
    destruct (notifyDepsChanged s (handle (CompactSettled now (inl summary)) s))
      eqn:E; [|rewrite (fires_needs_deps _ _ E) in Hf; discriminate Hf].
    rewrite (notifyEvents_fires s), Hf
      by (rewrite handle_prevLoadingRef; apply (settled_prev s Hs)).
    rewrite handle_items, lastAssistant_summary.
    unfold spawnNotification. rewrite handle_host.
    eexists. rewrite !List.app_assoc. reflexivity.
Qed.

Lemma compaction_notifies_with_summary_witness :
  notifications (step compactingState (CompactSettled 9 (inl "short"))) =
  S (notifications compactingState).
Proof.
  destruct (compaction_notifies_with_summary compactingState 9 "short")
    as [H _].
  - apply reach_step; [apply reach_mount | reflexivity].
  - reflexivity.
  - reflexivity.
  - reflexivity.
  - reflexivity.
  - exact H.
Defined.

(** ** Persistence and input *)





(** X8: the input box is only rendered with an engine in the cell, so a
    submitted batch is never dropped: it is appended to the transcript in
    order and handed to that engine in one [run] call, an empty batch
    included, and the step makes no other call. *)
Theorem submitted_input_reaches_engine s inputs :
  reachable s -> enabled s (SubmitInput inputs) = true ->
  exists e,
    agentRef s = Some e
    /\ agentRef (step s (SubmitInput inputs)) = Some e
    /\ trace (step s (SubmitInput inputs)) =
       trace s ++ [EvRun (engineId e) inputs]
    /\ items (step s (SubmitInput inputs)) = items s ++ inputs
    /\ overlayMode s = none.
Proof.
  intros Hr He. pose proof (reachable_settled s Hr) as [Hp _ _ _].
  cbn in He. unfold inputShown in He. apply andb_true_iff in He.
  destruct He as [Hm Ha].
  destruct (agentRef s) as [e|] eqn:Er; [|discriminate Ha].
  exists e. unfold step. repeat split.
  - rewrite commit_agentRef, agentDeps_handle, handle_agentRef. exact Er.
  - rewrite commit_trace, agentDeps_handle.
    rewrite notifyEvents_no_edge
      by (rewrite handle_prevLoadingRef, handle_loading; exact Hp).
    rewrite handle_trace, Er. cbn.
    destruct (notifyDepsChanged _ _); rewrite !List.app_nil_r; reflexivity.
  - rewrite (sc_items _ _ (commit_cells _ _)), handle_items. reflexivity.
  - destruct (overlayMode s); try discriminate Hm. reflexivity.
Qed.

Lemma submitted_input_reaches_engine_witness :
  exists e,
    agentRef sampleState = Some e
    /\ agentRef (step sampleState (SubmitInput [])) = Some e
    /\ trace (step sampleState (SubmitInput [])) =
       trace sampleState ++ [EvRun (engineId e) []]
    /\ items (step sampleState (SubmitInput [])) = items sampleState ++ []
    /\ overlayMode sampleState = none.
Proof.
  apply (submitted_input_reaches_engine sampleState []).
  - apply reach_mount.
  - reflexivity.
Defined.

(** ** The explanation text and the bridge *)

Lemma fallback_prefix e :
  String.prefix "Unable to generate explanation" (explanationFallback e)
  = true.
Proof.
  destruct e as [msg [|n|] pr|st pr]; cbn [explanationFallback];
    try reflexivity.
  destruct (n =? 401)%Z; [reflexivity|].
  destruct (n =? 429)%Z; [reflexivity|].
  destruct (500 <=? n)%Z; reflexivity.
Qed.

Lemma fallback_nonempty e : explanationFallback e <> "".
Proof.
  intros H. pose proof (fallback_prefix e) as Hp. rewrite H in Hp.
  discriminate Hp.
Qed.

(** X9: the explanation handed to the second prompt is never the empty
    string, and whenever text generation failed it begins with "Unable to
    generate explanation". *)
Theorem explanation_text_is_never_empty fmt gen cmd m text :
  generateCommandExplanation fmt gen cmd m = inr text ->
  text <> ""
  /\ (forall e, gen (explainRequest fmt cmd m) = inl e ->
      String.prefix "Unable to generate explanation" text = true).
Proof.
  rewrite generateCommandExplanation_eq.
  destruct (gen (explainRequest fmt cmd m)) as [e|t].
  - destruct (printOf e); intros H; [|discriminate H].
    injection H as <-.
    split; [apply fallback_nonempty|]. intros e' _. apply fallback_prefix.
  - intros H. injection H as <-.
    split; [|intros e' He; discriminate He].
    destruct (String.eqb_spec t ""); [discriminate | assumption].
Qed.

Lemma explanation_text_is_never_empty_witness :
  msgUnavailable <> "".
Proof.
  apply (explanation_text_is_never_empty sampleFmt generateTextError503
           ["rm"; "-rf"; "build"] "A" msgUnavailable).
  reflexivity.
Defined.

(** X10: the bridge rejects exactly when the first answer is
    request-explanation and the explanation call rejects, which it does only
    when text generation threw a value that line 102 cannot print; it then
    rejects with the fault of that conversion.  In every case it asks once
    or twice and reads at most the first two answers, and it stays pending
    exactly when an answer it waits for is missing. *)
Theorem bridge_rejects_only_with_the_explanation fmt gen m cmd patch_
    answers :
  (forall fault,
     fst (bridge fmt gen m cmd patch_ answers) = Rejected fault <->
     (exists first rest, answers = first :: rest /\ decision first = EXPLAIN)
     /\ generateCommandExplanation fmt gen cmd m = inl fault)
  /\ (forall fault,
        generateCommandExplanation fmt gen cmd m = inl fault <->
        exists e, gen (explainRequest fmt cmd m) = inl e
                  /\ printOf e = PrintThrows fault)
  /\ 1 <= questions (snd (bridge fmt gen m cmd patch_ answers)) <= 2
  /\ bridge fmt gen m cmd patch_ answers =
     bridge fmt gen m cmd patch_ (firstn 2 answers)
  /\ (fst (bridge fmt gen m cmd patch_ answers) = Pending <->
      answers = []
      \/ exists first text,
           answers = [first] /\ decision first = EXPLAIN
           /\ generateCommandExplanation fmt gen cmd m = inr text).
Proof.
  assert (Hgen : forall fault,
            generateCommandExplanation fmt gen cmd m = inl fault <->
            exists e, gen (explainRequest fmt cmd m) = inl e
                      /\ printOf e = PrintThrows fault).
  { intros fault. rewrite generateCommandExplanation_eq.
    destruct (gen (explainRequest fmt cmd m)) as [e|t].
    - destruct (printOf e) as [logged|f] eqn:Hp; split.
      + discriminate.
      + intros (e' & He & Hp'). injection He as <-. congruence.
      + intros H. injection H as <-. exists e. auto.
      + intros (e' & He & Hp'). injection He as <-. congruence.
    - split; [discriminate|]. intros (e' & He & _). discriminate He. }
  destruct answers as [|first rest].
  - unfold bridge, getCommandConfirmation. cbn.
    split.
    { intros fault. split; [discriminate|].
      intros [(f & r & H & _) _]. discriminate H. }
    split; [exact Hgen|]. split; [unfold questions; cbn; lia|].
    split; [reflexivity|]. split; auto.
  - destruct (isExplain (decision first)) eqn:He.
    + apply isExplain_spec in He.
      destruct (generateCommandExplanation fmt gen cmd m)
        as [fault0|text] eqn:Ht.
      * replace (firstn 2 (first :: rest)) with (first :: firstn 1 rest)
          by reflexivity.
        rewrite !(bridge_explanation_rejected _ _ _ _ _ _ _ fault0 He Ht).
        cbn.
        split.
        { intros fault. split.
          - intros H. injection H as <-. split; [|reflexivity].
            exists first, rest. auto.
          - intros [_ H]. congruence. }
        split; [exact Hgen|]. split; [unfold questions; cbn; lia|].
        split; [reflexivity|]. split; [discriminate|].
        intros [H|(f & text & _ & _ & H)]; discriminate H.
      * destruct rest as [|second rest].
        -- cbn [firstn].
           rewrite !(bridge_unanswered _ _ _ _ _ _ text He Ht). cbn.
           split.
           { intros fault. split; [discriminate|].
             intros [_ H]. discriminate H. }
           split; [exact Hgen|]. split; [unfold questions; cbn; lia|].
           split; [reflexivity|]. split; [|reflexivity].
           intros _. right. exists first, text. auto.
        -- cbn [firstn].
           rewrite !(bridge_explained _ _ _ _ _ _ _ _ text He Ht). cbn.
           split.
           { intros fault. split; [discriminate|].
             intros [_ H]. discriminate H. }
           split; [exact Hgen|]. split; [unfold questions; cbn; lia|].
           split; [reflexivity|]. split; [discriminate|].
           intros [H|(f & t & H & _)]; discriminate H.
    + assert (Hne : decision first <> EXPLAIN).
      { intros H. apply isExplain_spec in H. congruence. }
      replace (firstn 2 (first :: rest)) with (first :: firstn 1 rest)
        by reflexivity.
      rewrite !(bridge_direct _ _ _ _ _ _ _ Hne). cbn.
      split.
      { intros fault. split; [discriminate|].
        intros [(f & r & H & Hd) _]. injection H as <- _. contradiction. }
      split; [exact Hgen|]. split; [unfold questions; cbn; lia|].
      split; [reflexivity|]. split; [discriminate|].
      intros [H|(f & t & H & Hd & _)]; [discriminate H|].
      injection H as <- _. contradiction.
Qed.

(** ** The notification preview *)

Lemma jsLength_replaceAll_dquote s :
  jsLength (replaceAll dquote (String backslash (String dquote EmptyString)) s)
  <= 2 * jsLength s.
Proof.
  induction s as [|a s IH]; [cbn; lia|].
  cbn [replaceAll]. destruct (Ascii.eqb a dquote) eqn:E.
  - apply Ascii.eqb_eq in E. subst a.
    change (2 + jsLength
                  (replaceAll dquote
                     (String backslash (String dquote EmptyString)) s)
            <= 2 * (1 + jsLength s)).
    lia.
  - cbn [jsLength]. lia.
Qed.

Lemma replaceAll_noChar c by_ s :
  noChar c s = true -> replaceAll c by_ s = s.
Proof.
  induction s as [|a s IH]; cbn; [reflexivity|]. intros H.
  apply andb_true_iff in H. destruct H as [H1 H2].
  apply negb_true_iff in H1. rewrite H1, (IH H2). reflexivity.
Qed.

(** Sixty accented letters are 120 bytes and 60 code units: the preview
    keeps them all.  Cut after one unit, an emoji leaves the first unit of
    its surrogate pair, U+D83D. *)
Lemma preview_counts_code_units :
  String.length accented60 = 120
  /\ jsLength accented60 = 60
  /\ previewOf accented60 = accented60
  /\ jsLength grinningFace = 2
  /\ slice0 1 grinningFace =
     String (ascii_of_N 237)
       (String (ascii_of_N 160) (String (ascii_of_N 189) EmptyString)).
Proof. vm_compute. repeat split. Qed.

(** X11: counted in UTF-16 code units, as line 366 counts, the preview has
    the length of the text up to 100, the escaped body is at most 200 units
    long, and a text of at most 100 units without newline or double quote is
    passed on unchanged. *)
Theorem preview_is_bounded text :
  jsLength (previewOf text) = Nat.min 100 (jsLength text)
  /\ jsLength (safePreviewOf text) <= 200
  /\ (jsLength text <= 100 -> noChar newline text = true ->
      noChar dquote text = true -> safePreviewOf text = text).
Proof.
  assert (Hp : jsLength (previewOf text) = Nat.min 100 (jsLength text)).
  { unfold previewOf.
    rewrite jsLength_slice0, jsLength_replaceAll_newline. reflexivity. }
  split; [exact Hp|]. split.
  { unfold safePreviewOf.
    pose proof (jsLength_replaceAll_dquote (previewOf text)) as H1. lia. }
  intros Hl Hn Hq. unfold safePreviewOf, previewOf.
  rewrite (replaceAll_noChar newline " " text Hn).
  rewrite (slice0_all 100 text Hl).
  apply replaceAll_noChar. exact Hq.
Qed.

Lemma preview_is_bounded_witness : safePreviewOf "done" = "done".
Proof.
  destruct (preview_is_bounded "done") as (_ & _ & H).
  apply H; [vm_compute; lia | reflexivity | reflexivity].
Defined.

(** ** Edge cases of the overlays *)

(** X12: the model overlay has no guard like the one at line 569 of the
    approval overlay: selecting the model already in use still cancels the
    engine's work, clears [loading], saves the config and appends the
    notice, but the identity has not changed, so the engine stays in the
    cell and is neither terminated nor replaced. *)
Theorem reselecting_model_cancels_but_keeps_engine s now :
  reachable s ->
  let s' := step s (ModelOnSelect now (curModel s)) in
  agentRef s' = agentRef s
  /\ terminations s' = terminations s
  /\ constructions s' = constructions s
  /\ (exists post,
        trace s' =
        trace s ++ cancelEvents s
          ++ [saveConfigCall (config s) (curModel s)] ++ post
        /\ Forall (fun ev => isSpawn ev = true) post)
  /\ loading s' = false
  /\ items s' = items s ++ [modelSwitchNotice now (curModel s)].
Proof.
  intros Hr s'. subst s'. unfold step.
  assert (Hd : agentDepsChanged s (handle (ModelOnSelect now (curModel s)) s)
               = false).
  { rewrite agentDeps_handle, String.eqb_refl. reflexivity. }
  split; [rewrite commit_agentRef, Hd, handle_agentRef; reflexivity|].
  split.
  { rewrite commit_terminations, Hd, handle_terminations. cbn. lia. }
  split.
  { rewrite commit_constructions, Hd, handle_constructions. cbn. lia. }
  split.
  { rewrite commit_trace, Hd, handle_trace. cbn.
    rewrite <- !List.app_assoc. eexists. split; [reflexivity|].
    destruct (notifyDepsChanged _ _); [apply notifyEvents_spawn|constructor]. }
  split.
  { rewrite (sc_loading _ _ (commit_cells _ _)), handle_loading.
    reflexivity. }
  rewrite (sc_items _ _ (commit_cells _ _)), handle_items. reflexivity.
Qed.

Lemma reselecting_model_cancels_but_keeps_engine_witness :
  agentRef (step (step sampleState OpenModelOverlay)
              (ModelOnSelect 5 (curModel (step sampleState OpenModelOverlay))))
  = agentRef (step sampleState OpenModelOverlay).
Proof.
  apply (reselecting_model_cancels_but_keeps_engine
           (step sampleState OpenModelOverlay) 5).
  apply reach_step; [apply reach_mount | reflexivity].
Defined.

Lemma handle_mcpServerStatus a s :
  mcpServerStatus (handle a s) =
  match a with OpenMCPOverlay st => st | _ => mcpServerStatus s end.
Proof. by_handler s a. Qed.

Lemma step_mcpServerStatus s a :
  mcpServerStatus (step s a) =
  match a with OpenMCPOverlay st => st | _ => mcpServerStatus s end.
Proof.
  unfold step. rewrite (sc_mcp _ _ (commit_cells _ _)).
  apply handle_mcpServerStatus.
Qed.

(** X13: the server status shown by the MCP overlay is the snapshot taken
    when the overlay was opened: opening stores the status it is given and
    shows the overlay, and no sequence of other events, however long,
    refreshes it. *)
Theorem mcp_status_is_a_snapshot s status l :
  Forall (fun a => isOpenMCP a = false) l ->
  mcpServerStatus (run (step s (OpenMCPOverlay status)) l) = status
  /\ overlayMode (step s (OpenMCPOverlay status)) = mcp.
Proof.
  intros Hl. split.
  - assert (H : forall t, mcpServerStatus (run t l) = mcpServerStatus t).
    { induction Hl as [|a l Ha _ IH]; intros t; [reflexivity|].
      cbn [run fold_left]. fold (run (step t a) l).
      rewrite IH, step_mcpServerStatus.
      destruct a; try reflexivity. discriminate Ha. }
    rewrite H, step_mcpServerStatus. reflexivity.
  - rewrite step_overlayMode, handle_overlayMode. reflexivity.
Qed.

Lemma mcp_status_is_a_snapshot_witness :
  mcpServerStatus
    (run (step sampleState (OpenMCPOverlay [("files", true)]))
       [OnLoading true; OnExit]) = [("files", true)].
Proof.
  apply (mcp_status_is_a_snapshot sampleState [("files", true)]
           [OnLoading true; OnExit]).
  repeat constructor.
Defined.

(** ** The transcript, once started *)

Lemma step_items_nonempty s a : items s <> [] -> items (step s a) <> [].
Proof.
  intros Hn. unfold step.
  rewrite (sc_items _ _ (commit_cells _ _)), handle_items.
  destruct a as [ | | | | | | | | | | | | | ? [?|?] | | | | | ];
    try exact Hn;
    try (destruct (agentRef s));
    try (destruct (ApprovalPolicy_eqb _ _));
    try match goal with |- context [printOf ?e] => destruct (printOf e) end;
    try exact Hn; try discriminate;
    intros H; apply app_eq_nil in H; destruct H as [H _]; contradiction.
Qed.

(** X14: once the transcript holds an item it never becomes empty again,
    compaction included, so [isNew] (line 455), true at mount, is false for
    good after the first append. *)
Theorem transcript_never_empties_again s l :
  isNew s = false -> isNew (run s l) = false.
Proof.
  assert (Hiff : forall t, isNew t = false <-> items t <> []).
  { intros t. unfold isNew. destruct (items t); cbn; split;
      congruence. }
  revert s. induction l as [|a l IH]; intros s Hs; [exact Hs|].
  cbn [run fold_left]. fold (run (step s a) l). apply IH.
  apply Hiff. apply step_items_nonempty. apply Hiff. exact Hs.
Qed.

Lemma transcript_never_empties_again_witness :
  isNew (run (step sampleState (SubmitInput [hello]))
           [OnCompact; CompactSettled 4 (inl "summary")]) = false.
Proof.
  apply transcript_never_empties_again. reflexivity.
Defined.

(** ** Platforms without notifications *)

Lemma step_host s a : host (step s a) = host s.
Proof.
  unfold step. rewrite (sc_host _ _ (commit_cells _ _)). apply handle_host.
Qed.

(** X15: on a platform other than darwin the component never spawns a
    notification, whatever the config says and whatever happens. *)
Theorem no_notification_off_darwin s :
  reachable s -> String.eqb (platform (host s)) "darwin" = false ->
  notifications s = 0.
Proof.
  induction 1 as [h c p r | s a Hr IH He]; intros Hd.
  - unfold notifications, count. rewrite mount_trace. reflexivity.
  - rewrite step_host in Hd.
    rewrite (step_notifications s a (reachable_settled s Hr)), (IH Hd).
    unfold fires. rewrite step_host, Hd.
    rewrite andb_false_r. reflexivity.
Qed.

Lemma no_notification_off_darwin_witness :
  notifications
    (run (mount (mkHost "linux" "~/proj") sampleConfig suggest sampleRoots)
       [OnLoading true; OnItem 0 answer; OnLoading false]) = 0.
Proof.
  apply no_notification_off_darwin.
  - apply reachable_run; [apply reach_mount | reflexivity].
  - reflexivity.
Defined.

(** ** Interruption and the gate *)

Lemma lastAssistant_snoc_other l m :
  isAssistant m = false -> lastAssistant (l ++ [m]) = lastAssistant l.
Proof.
  intros H. unfold lastAssistant. rewrite List.filter_app. cbn.
  rewrite H. rewrite List.app_nil_r. reflexivity.
Qed.

(** X16: interrupting a busy engine is itself a fall of [loading]: with no
    prompt pending, notifications enabled and the platform darwin, the step
    spawns exactly one notification, and since the interruption notice is a
    system item its body is the preview of the assistant item that was last
    before the interruption. *)
Theorem interrupt_notifies_last_answer s e m now :
  reachable s -> agentRef s = Some e -> loading s = true ->
  confirmationPrompt s = None -> notifyOpt (config s) = true ->
  platform (host s) = "darwin" -> lastAssistant (items s) = Some m ->
  let s' := step s (InterruptAgent now) in
  notifications s' = S (notifications s)
  /\ exists pre,
       trace s' =
       pre ++ [EvSpawn "osascript"
                 ["-e"; notificationScript (safePreviewOf (getTextContent m))
                          "Codex CLI" (PWD (host s))]].
Proof.
  intros Hr He Hl Hp Hn Hd Hm s'. subst s'.
  pose proof (reachable_settled s Hr) as Hs.
  assert (Hi : lastAssistant (items (handle (InterruptAgent now) s)) = Some m).
  { rewrite handle_items, He.
    rewrite lastAssistant_snoc_other by reflexivity. exact Hm. }
  assert (Hf : fires s (handle (InterruptAgent now) s) = true).
  { unfold fires, isPending.
    rewrite handle_config, handle_loading, handle_confirmationPrompt,
      handle_host, Hi, He, Hl, Hp, Hn, Hd.
    reflexivity. }
  split.
  - rewrite (step_notifications s _ Hs). unfold step.
    rewrite fires_commit, Hf. lia.
  - unfold step. rewrite commit_trace.
    destruct (notifyDepsChanged s (handle (InterruptAgent now) s)) eqn:E;
      [|rewrite (fires_needs_deps _ _ E) in Hf; discriminate Hf].
    rewrite (notifyEvents_fires s), Hf
      by (rewrite handle_prevLoadingRef; apply (settled_prev s Hs)).
    rewrite Hi. unfold spawnNotification. rewrite handle_host.
    eexists. rewrite !List.app_assoc. reflexivity.
Qed.

Lemma interrupt_notifies_last_answer_witness :
  notifications
    (step (run sampleState [OnLoading true; OnItem 0 answer])
       (InterruptAgent 8)) =
  S (notifications (run sampleState [OnLoading true; OnItem 0 answer])).
Proof.
  destruct (interrupt_notifies_last_answer
              (run sampleState [OnLoading true; OnItem 0 answer])
              (newAgentLoop (initialState sampleHost sampleConfig suggest
                               sampleRoots))
              answer 8) as [H _].
  - apply reachable_run; [apply reach_mount | reflexivity].
  - reflexivity.
  - reflexivity.
  - reflexivity.
  - reflexivity.
  - reflexivity.
  - reflexivity.
  - exact H.
Defined.

(** ** The user message count *)

Lemma step_userMsgCount s a :
  userMsgCount (step s a) =
  length (List.filter isUser (items (handle a s))).
Proof.
  unfold userMsgCount, step.
  rewrite (sc_items _ _ (commit_cells _ _)). reflexivity.
Qed.

(** X17: [userMsgCount] (line 414) grows with a submitted batch by the
    number of user items in it, is unchanged by the system notices of
    interruption, model switch, approval switch, diff and failed
    compaction, and restarts at zero when a compaction succeeds. *)
Theorem user_message_count s a :
  userMsgCount (step s a) =
  match a with
  | SubmitInput inputs =>
      userMsgCount s + length (List.filter isUser inputs)
  | OnItem _ item => userMsgCount s + (if isUser item then 1 else 0)
  | CompactSettled _ (inl _) => 0
  | _ => userMsgCount s
  end.
Proof.
  rewrite step_userMsgCount, handle_items. unfold userMsgCount.
  destruct a as [ | | | | | | | | | | | | | ? [?|?] | | | | | ];
    try reflexivity;
    try (destruct (agentRef s));
    try (destruct (ApprovalPolicy_eqb _ _));
    try match goal with |- context [printOf ?e] => destruct (printOf e) end;
    rewrite ?List.filter_app, ?List.length_app; cbn;
    try (destruct (isUser item)); cbn; lia.
Qed.
